(** * ClassQuiz: the embedded (box controller) game endpoint

    A shallow embedding of [classquiz/routers/box_controller/embedded.py]
    and of the data classes of [classquiz/db/models.py] it works on.

    - Python objects are records, the [answers] union of a question is a
      tagged sum, enums are inductive types.
    - The handlers are [async] functions working on three pieces of shared
      state: the Redis store, the module-level dict [wss_clients] and the
      socket.io server.  They are written in a state-and-exception monad
      [M] over a [World] that holds the three, so a raised exception keeps
      the writes made before it, as in Python.
    - Redis keys are the very strings the f-strings of the source build.
      The store is kept by the shape of the value a key holds (plain text,
      a [PlayGame] document, an [AnswerDataList] document, an ISO time, a
      hash, a set): the JSON codecs of pydantic are not modelled, a stored
      document is the value it decodes to.
    - [datetime] values are microsecond counts; the float number of
      milliseconds [total_seconds() * 1000] is the exact rational.
    - One handler runs at a time: the interleaving of coroutines at their
      [await] points is outside this model. *)

From Stdlib Require Import Ascii String QArith Qabs Qround.
From stdpp Require Import gmap strings list pretty.

Set Warnings "-notation-for-abbreviation".
Local Open Scope Z_scope.

(** ** Data classes of [classquiz/db/models.py] *)

Module ABCDQuizAnswer.
Record t := { right : bool; answer : string; color : option string }.
End ABCDQuizAnswer.

Module RangeQuizAnswer.
Record t := { min : Z; max : Z; min_correct : Z; max_correct : Z }.
End RangeQuizAnswer.

Module VotingQuizAnswer.
Record t := { answer : string; image : option string; color : option string }.
End VotingQuizAnswer.

Inductive QuizQuestionType := ABCD | RANGE | VOTING | SLIDE | TEXT | ORDER.

Module TextQuizAnswer.
Record t := { answer : string; case_sensitive : bool }.
End TextQuizAnswer.

(** [list[ABCDQuizAnswer] | RangeQuizAnswer | list[TextQuizAnswer] |
    list[VotingQuizAnswer] | str] *)
Inductive QuizAnswers :=
| AnswersABCD (l : list ABCDQuizAnswer.t)
| AnswersRange (r : RangeQuizAnswer.t)
| AnswersText (l : list TextQuizAnswer.t)
| AnswersVoting (l : list VotingQuizAnswer.t)
| AnswersStr (s : string).

Module QuizQuestion.
Record t := {
  question : string;
  time : string;                      (* in Secs *)
  type : option QuizQuestionType;     (* None | QuizQuestionType *)
  answers : QuizAnswers;
  image : option string;
}.
End QuizQuestion.

Module PlayGame.
Record t := {
  quiz_id : string;
  description : string;
  user_id : string;
  title : string;
  questions : list QuizQuestion.t;
  game_id : string;
  game_pin : string;
  started : bool;
  captcha_enabled : bool;
  cover_image : option string;
  game_mode : option string;
  current_question : Z;
  background_color : option string;
  background_image : option string;
  custom_field : option string;
  question_show : bool;
}.
End PlayGame.

Module GamePlayer.
Record t := { username : string; sid : option string }.
End GamePlayer.

#[global] Instance GamePlayer_eq_dec : EqDecision GamePlayer.t.
Proof. solve_decision. Defined.

#[global] Instance GamePlayer_countable : Countable GamePlayer.t :=
  inj_countable'
    (λ p, (GamePlayer.username p, GamePlayer.sid p))
    (λ '(u, s), {| GamePlayer.username := u; GamePlayer.sid := s |})
    (ltac:(by intros [])).

(** A [datetime], counted in microseconds. *)
Notation datetime := Z (only parsing).

Module AnswerData.
Record t := {
  username : string;
  answer : string;
  right : bool;
  time_taken : Q;                     (* In milliseconds *)
  score : Z;
}.
End AnswerData.

(** [AnswerDataList.__root__] *)
Notation AnswerDataList := (list AnswerData.t) (only parsing).

(** ** Request and response classes of [embedded.py] *)

Module JoinGameInput.
Record t := { code : string; name : string }.
End JoinGameInput.

Module JoinGameResponse.
Record t := { id : string }.
End JoinGameResponse.

Inductive WebSocketTypes := ButtonPress | Error.

(** [typing.Any], as far as the handler looks at it: a string has
    [.lower()], nothing else that JSON decodes to has. *)
Inductive Any := AnyStr (s : string) | AnyOther.

Module WebSocketRequest.
Record t := { type : WebSocketTypes; data : Any }.
End WebSocketRequest.

(** ** Exceptions and outcomes *)

Inductive exn :=
| HTTPException (status_code : Z) (detail : string)
| ValidationError
| WebSocketDisconnect
| KeyError
| IndexError
| TypeError
| AttributeError
| ValueError.

Inductive outcome (A : Type) :=
| Ok (a : A)
| Raise (e : exn).
Arguments Ok {A} a.
Arguments Raise {A} e.

(** ** The shared state *)

Record Redis := {
  strs : gmap string string;            (* plain text values *)
  games : gmap string PlayGame.t;       (* PlayGame.json() documents *)
  times : gmap string datetime;         (* isoformat() values *)
  answer_lists : gmap string AnswerDataList;  (* AnswerDataList.json() *)
  hashes : gmap string (gmap string Z); (* HINCRBY hashes *)
  sets : gmap string (gset GamePlayer.t);     (* sets of GamePlayer.json() *)
}.

(** A connection object of the ASGI server, by its number. *)
Notation WebSocket := nat (only parsing).

Inductive WsAction :=
| WsAccept
| WsClose (code : Z)
| WsSendText (msg : WebSocketRequest.t).

Inductive SioData :=
| DataEmpty                                       (* {} *)
| DataPlayer (username : option string) (sid : option string).

Record SioEvent := {
  event : string;
  data : SioData;
  room : option string;
}.

Record World := {
  redis : Redis;
  wss_clients : gmap string WebSocket;
  sio_emitted : list SioEvent;                    (* oldest first *)
  ws_log : list (WebSocket * WsAction);           (* oldest first *)
}.

Definition with_redis (f : Redis → Redis) (w : World) : World :=
  {| redis := f (redis w); wss_clients := wss_clients w;
     sio_emitted := sio_emitted w; ws_log := ws_log w |}.

Definition with_wss_clients (f : gmap string WebSocket → gmap string WebSocket)
    (w : World) : World :=
  {| redis := redis w; wss_clients := f (wss_clients w);
     sio_emitted := sio_emitted w; ws_log := ws_log w |}.

(** ** The monad of the handlers *)

Definition M (A : Type) : Type := World → outcome A * World.

Definition ret {A} (a : A) : M A := λ w, (Ok a, w).

Definition raise {A} (e : exn) : M A := λ w, (Raise e, w).

Definition bind {A B} (m : M A) (k : A → M B) : M B :=
  λ w, match m w with
       | (Ok a, w1) => k a w1
       | (Raise e, w1) => (Raise e, w1)
       end.

Notation "'let*' x := m 'in' k" := (bind m (λ x, k))
  (at level 10, x pattern, m at level 100, k at level 200).
Notation "m ;; k" := (bind m (λ _, k))
  (at level 100, k at level 200, right associativity).

(** [try: body except ...: handler]; [handler e] is [None] for an exception
    no clause matches. *)
Definition try_except {A} (body : M A) (handler : exn → option (M A)) : M A :=
  λ w, match body w with
       | (Raise e, w1) =>
           match handler e with
           | Some h => h w1
           | None => (Raise e, w1)
           end
       | r => r
       end.

Definition lift {A} (o : outcome A) : M A := λ w, (o, w).

(** ** Python built-ins *)

(** [l[i]] on a list: a negative index counts from the end. *)
Definition list_getitem {A} (l : list A) (i : Z) : outcome A :=
  let n := Z.of_nat (length l) in
  let j := if i <? 0 then i + n else i in
  if (0 <=? j) && (j <? n) then
    match l !! Z.to_nat j with
    | Some x => Ok x
    | None => Raise IndexError
    end
  else Raise IndexError.

(** [s[i]] on a [str]. *)
Definition str_getitem (s : string) (i : Z) : outcome ascii :=
  list_getitem (list_ascii_of_string s) i.

(** [s.split(sep)] for a one-character separator. *)
Fixpoint str_split (sep : ascii) (s : string) : list string :=
  match s with
  | EmptyString => [EmptyString]
  | String c s' =>
      if Ascii.eqb c sep then EmptyString :: str_split sep s'
      else match str_split sep s' with
           | h :: t => String c h :: t
           | [] => [String c EmptyString]
           end
  end.

(** [a, b = l] *)
Definition unpack2 {A} (l : list A) : outcome (A * A) :=
  match l with
  | [a; b] => Ok (a, b)
  | _ => Raise ValueError
  end.

Definition ascii_lower (c : ascii) : ascii :=
  let n := N_of_ascii c in
  if ((65 <=? n) && (n <=? 90))%N then ascii_of_N (n + 32) else c.

(** [s.lower()] *)
Fixpoint str_lower (s : string) : string :=
  match s with
  | EmptyString => EmptyString
  | String c s' => String (ascii_lower c) (str_lower s')
  end.

Definition hex_digit (n : N) : ascii :=
  if (n <? 10)%N then ascii_of_N (48 + n) else ascii_of_N (87 + n).

(** [b.hex()] *)
Fixpoint bytes_hex (b : list Byte.byte) : string :=
  match b with
  | [] => EmptyString
  | x :: b' =>
      let n := Byte.to_N x in
      String (hex_digit (n / 16)) (String (hex_digit (n mod 16)) (bytes_hex b'))
  end.

(** ** Redis commands *)

Definition redis_get (key : string) : M (option string) :=
  λ w, (Ok (strs (redis w) !! key), w).

Definition redis_get_game (key : string) : M (option PlayGame.t) :=
  λ w, (Ok (games (redis w) !! key), w).

Definition redis_get_time (key : string) : M (option datetime) :=
  λ w, (Ok (times (redis w) !! key), w).

Definition redis_get_answers (key : string) : M (option AnswerDataList) :=
  λ w, (Ok (answer_lists (redis w) !! key), w).

Definition redis_set (key value : string) : M unit :=
  λ w, (Ok tt, with_redis (λ r,
    {| strs := <[key := value]> (strs r); games := games r; times := times r;
       answer_lists := answer_lists r; hashes := hashes r; sets := sets r |}) w).

Definition redis_set_answers (key : string) (value : AnswerDataList) : M unit :=
  λ w, (Ok tt, with_redis (λ r,
    {| strs := strs r; games := games r; times := times r;
       answer_lists := <[key := value]> (answer_lists r);
       hashes := hashes r; sets := sets r |}) w).

Definition hash_get (r : Redis) (key field : string) : Z :=
  default 0 (default ∅ (hashes r !! key) !! field).

Definition redis_hincrby (key field : string) (amount : Z) : M unit :=
  λ w, (Ok tt, with_redis (λ r,
    {| strs := strs r; games := games r; times := times r;
       answer_lists := answer_lists r;
       hashes := <[key := <[field := hash_get r key field + amount]>
                            (default ∅ (hashes r !! key))]> (hashes r);
       sets := sets r |}) w).

Definition redis_sadd (key : string) (member : GamePlayer.t) : M unit :=
  λ w, (Ok tt, with_redis (λ r,
    {| strs := strs r; games := games r; times := times r;
       answer_lists := answer_lists r; hashes := hashes r;
       sets := <[key := {[member]} ∪ default ∅ (sets r !! key)]> (sets r) |}) w).

Definition redis_scard (key : string) : M Z :=
  λ w, (Ok (Z.of_nat (size (default ∅ (sets (redis w) !! key)))), w).

(** [PlayGame.parse_raw], [datetime.fromisoformat]: what they do on [None];
    a stored document decodes to itself. *)
Definition PlayGame_parse_raw (raw : option PlayGame.t) : M PlayGame.t :=
  match raw with
  | Some game => ret game
  | None => raise ValidationError
  end.

Definition datetime_fromisoformat (raw : option datetime) : M datetime :=
  match raw with
  | Some t => ret t
  | None => raise TypeError
  end.

(** ** socket.io and websocket effects *)

Definition sio_emit (ev : string) (d : SioData) (rm : option string) : M unit :=
  λ w, (Ok tt,
    {| redis := redis w; wss_clients := wss_clients w;
       sio_emitted := sio_emitted w ++ [{| event := ev; data := d; room := rm |}];
       ws_log := ws_log w |}).

Definition ws_do (ws : WebSocket) (a : WsAction) : M unit :=
  λ w, (Ok tt,
    {| redis := redis w; wss_clients := wss_clients w;
       sio_emitted := sio_emitted w; ws_log := ws_log w ++ [(ws, a)] |}).

(** The module-level dict [wss_clients]: [id in wss_clients.keys()],
    [wss_clients[id] = ws] and [wss_clients.pop(id, None)]. *)
Definition wss_clients_contains (id : string) : M bool :=
  λ w, (Ok (bool_decide (id ∈ dom (wss_clients w))), w).

Definition wss_clients_setitem (id : string) (ws : WebSocket) : M unit :=
  λ w, (Ok tt, with_wss_clients (insert id ws) w).

Definition wss_clients_pop (id : string) : M unit :=
  λ w, (Ok tt, with_wss_clients (delete id) w).

Definition WS_1001_GOING_AWAY : Z := 1001.
Definition WS_1003_UNSUPPORTED_DATA : Z := 1003.

(** ** [classquiz.socket_server] *)

(** Modelled from the spec: [set_answer] of [classquiz.socket_server], whose
    source is not part of the controller.  It adds the answer record to the
    answers collected for the question, a top-level list ([AnswerDataList])
    kept under the key the caller read [answers] from, and hands the new
    list back. *)
Definition set_answer (answers : option AnswerDataList) (game_pin : string)
    (data : AnswerData.t) (q_index : Z) : M (option AnswerDataList) :=
  let answers := default [] answers ++ [data] in
  redis_set_answers ("game_session:" +:+ game_pin +:+ ":" +:+ pretty q_index) answers ;;
  ret (Some answers).

(** ** [embedded.py] *)

Definition button_to_index_map : gmap string Z :=
  {[ "b" := 0; "g" := 1; "y" := 2; "r" := 3 ]}.

(** [question.answers[data_answer].answer] *)
Definition answers_getitem_answer (answers : QuizAnswers) (data_answer : Z)
    : outcome string :=
  match answers with
  | AnswersABCD l =>
      match list_getitem l data_answer with
      | Ok a => Ok (ABCDQuizAnswer.answer a)
      | Raise e => Raise e
      end
  | AnswersRange _ => Raise TypeError       (* not subscriptable *)
  | AnswersText l =>
      match list_getitem l data_answer with
      | Ok a => Ok (TextQuizAnswer.answer a)
      | Raise e => Raise e
      end
  | AnswersVoting l =>
      match list_getitem l data_answer with
      | Ok a => Ok (VotingQuizAnswer.answer a)
      | Raise e => Raise e
      end
  | AnswersStr s =>
      match str_getitem s data_answer with
      | Ok _ => Raise AttributeError        (* a str has no .answer *)
      | Raise e => Raise e
      end
  end.

(** The [for answer in question.answers] loop over ABCD answers; the
    result is [answer_right]. *)
Fixpoint abcd_loop (answers : list ABCDQuizAnswer.t) (selected_answer : string)
    : bool :=
  match answers with
  | [] => false
  | answer :: answers =>
      if String.eqb (ABCDQuizAnswer.answer answer) selected_answer
         && ABCDQuizAnswer.right answer
      then true
      else abcd_loop answers selected_answer
  end.

(** The same loop on whatever [question.answers] holds: an element without
    a [right] attribute raises as soon as its [answer] matches. *)
Definition answers_loop (answers : QuizAnswers) (selected_answer : string)
    : outcome bool :=
  match answers with
  | AnswersABCD l => Ok (abcd_loop l selected_answer)
  | AnswersText l =>
      if existsb (λ a, String.eqb (TextQuizAnswer.answer a) selected_answer) l
      then Raise AttributeError else Ok false
  | AnswersVoting l =>
      if existsb (λ a, String.eqb (VotingQuizAnswer.answer a) selected_answer) l
      then Raise AttributeError else Ok false
  | AnswersRange _ => Raise AttributeError  (* iterates over (field, value) *)
  | AnswersStr s =>
      match s with
      | EmptyString => Ok false
      | String _ _ => Raise AttributeError
      end
  end.

(** [button_to_index_map[data.data.lower()]] *)
Definition button_index (d : Any) : outcome Z :=
  match d with
  | AnyStr s =>
      match button_to_index_map !! str_lower s with
      | Some i => Ok i
      | None => Raise KeyError
      end
  | AnyOther => Raise AttributeError
  end.

(** [GamePlayer(username=username, sid=sid)]: [username] is a required
    [str]. *)
Definition GamePlayer_new (username sid : option string) : M GamePlayer.t :=
  match username with
  | Some u => ret {| GamePlayer.username := u; GamePlayer.sid := sid |}
  | None => raise ValidationError
  end.

(** What [ws.receive_text()] hands to the loop of the endpoint: a text
    frame, with what [WebSocketRequest.parse_raw] makes of it ([None] for a
    [ValidationError]) and the clock at its arrival, or the end of the
    connection. *)
Inductive Inbound :=
| Receive (now : datetime) (raw_data : option WebSocketRequest.t)
| Disconnected.

(** Where a run of the endpoint stands once its inbox is used up. *)
Inductive EndpointStatus := Returned | Receiving.

Section Controller.

(** [calculate_score(z, t)] of [classquiz.socket_server]: the scoring
    policy, elapsed milliseconds and time limit in seconds to a score. *)
Variable calculate_score : Q → Z → Z.

(** [int(float(s))] on the [time] string of a question. *)
Variable int_float : string → outcome Z.

Definition join_game (data : JoinGameInput.t) (urandom : list Byte.byte)
    : M JoinGameResponse.t :=
  let* game_pin := redis_get ("game:cqc:code:" +:+ JoinGameInput.code data) in
  match game_pin with
  | None => raise (HTTPException 404 "Game not found")
  | Some game_pin =>
      let* game := redis_get_game ("game:" +:+ game_pin) in
      let* game := PlayGame_parse_raw game in
      (* Check if game is already running *)
      if PlayGame.started game
      then raise (HTTPException 400 "Game started already")
      else
        (* check if username already exists *)
        let* taken := redis_get ("game_session:" +:+ game_pin +:+ ":players:"
                                 +:+ JoinGameInput.name data) in
        match taken with
        | Some _ => raise (HTTPException 409 "Username already exists")
        | None =>
            let player_id := bytes_hex urandom in   (* os.urandom(5).hex() *)
            redis_set ("game:cqc:player:" +:+ player_id) (JoinGameInput.name data) ;;
            ret {| JoinGameResponse.id := player_id +:+ ":" +:+ game_pin |}
        end
  end.

Definition submit_answer_fn (data_answer : Z) (game_pin player_id : string)
    (now : datetime) : M unit :=
  let* redis_res_game := redis_get_game ("game:" +:+ game_pin) in
  let* username := redis_get ("game:cqc:player:" +:+ player_id) in
  match redis_res_game, username with
  | Some _, Some username =>
      let* game := PlayGame_parse_raw redis_res_game in
      if negb (PlayGame.question_show game) then ret tt
      else
        let* question := lift (list_getitem (PlayGame.questions game)
                                 (PlayGame.current_question game)) in
        let* raw_time := redis_get_time ("game:" +:+ game_pin +:+ ":current_time") in
        let* question_time := datetime_fromisoformat raw_time in
        let* selected :=
          try_except
            (let* a := lift (answers_getitem_answer
                               (QuizQuestion.answers question) data_answer) in
             ret (Some a))
            (λ e, match e with KeyError => Some (ret None) | _ => None end) in
        match selected with
        | None => ret tt                          (* except KeyError: return *)
        | Some selected_answer =>
            let* graded :=
              match QuizQuestion.type question with
              | Some ABCD =>
                  let* r := lift (answers_loop (QuizQuestion.answers question)
                                    selected_answer) in
                  ret (Some r)
              | Some VOTING => ret (Some false)
              | _ => ret None
              end in
            match graded with
            | None => ret tt                      (* else: return *)
            | Some answer_right =>
                let diff := Qmake (question_time - now) 1000 in
                let* score :=
                  if answer_right
                  then let* t := lift (int_float (QuizQuestion.time question)) in
                       ret (calculate_score (Qabs diff) t)
                  else ret 0 in
                redis_hincrby ("game_session:" +:+ game_pin +:+ ":player_scores")
                  username score ;;
                let answer_data :=
                  {| AnswerData.username := username;
                     AnswerData.answer := selected_answer;
                     AnswerData.right := answer_right;
                     AnswerData.time_taken := Qabs diff;
                     AnswerData.score := score |} in
                let* answers :=
                  redis_get_answers ("game_session:" +:+ game_pin +:+ ":"
                                     +:+ pretty (PlayGame.current_question game)) in
                let* answers := set_answer answers game_pin answer_data
                                  (PlayGame.current_question game) in
                let* player_count :=
                  redis_scard ("game_session:" +:+ game_pin +:+ ":players") in
                match answers with
                | Some l =>
                    if Z.of_nat (length l) =? player_count
                    then sio_emit "everyone_answered" DataEmpty None
                    else ret tt
                | None => ret tt
                end
            end
        end
  | _, _ => raise (HTTPException 404 "id not existent")
  end.

Definition send_error (ws : WebSocket) (reason : string) : M unit :=
  ws_do ws (WsSendText {| WebSocketRequest.type := Error;
                          WebSocketRequest.data := AnyStr reason |}).

(** The [while True] loop of the endpoint, run on the frames that reach
    it. *)
Fixpoint receive_loop (ws : WebSocket) (game_pin player_id : string)
    (inbox : list Inbound) : M EndpointStatus :=
  match inbox with
  | [] => ret Receiving
  | Disconnected :: _ => raise WebSocketDisconnect
  | Receive now raw_data :: inbox =>
      match raw_data with
      | None =>
          send_error ws "ValidationError" ;;
          receive_loop ws game_pin player_id inbox
      | Some data =>
          match WebSocketRequest.type data with
          | ButtonPress =>
              let* answer_index :=
                try_except
                  (let* i := lift (button_index (WebSocketRequest.data data)) in
                   ret (Some i))
                  (λ e, match e with
                        | KeyError | AttributeError =>
                            Some (send_error ws "InvalidButton" ;; ret None)
                        | _ => None
                        end) in
              match answer_index with
              | None => receive_loop ws game_pin player_id inbox
              | Some answer_index =>
                  submit_answer_fn answer_index game_pin player_id now ;;
                  receive_loop ws game_pin player_id inbox
              end
          | Error => receive_loop ws game_pin player_id inbox
          end
      end
  end.

(** The route is [/socket/{id}]: [id] is the key of the registry,
    [game_id] is what the handler splits.  The test
    [player_id is None or game_pin is None] after the split never holds
    for the two strings of a successful unpacking, so its branch is
    left out. *)
Definition websocket_endpoint (ws : WebSocket) (game_id id : string)
    (inbox : list Inbound) : M EndpointStatus :=
  try_except
    (let* known := wss_clients_contains id in
     if known
     then ws_do ws (WsClose WS_1001_GOING_AWAY) ;; ret Returned
     else
       ws_do ws WsAccept ;;
       wss_clients_setitem id ws ;;
       let* (player_id, game_pin) := lift (unpack2 (str_split ":" game_id)) in
       let* username := redis_get ("game:cqc:player:" +:+ player_id) in
       sio_emit "player_joined" (DataPlayer username None)
         (Some ("admin:" +:+ game_pin)) ;;
       let* player := GamePlayer_new username None in
       redis_sadd ("game_session:" +:+ game_pin +:+ ":players") player ;;
       receive_loop ws game_pin player_id inbox)
    (λ e, match e with
          | WebSocketDisconnect => Some (wss_clients_pop id ;; ret Returned)
          | _ => None
          end).

End Controller.

(** ** Observations on the world *)

(** The answer records kept for a question of a game. *)
Definition recorded_answers (w : World) (game_pin : string) (q_index : Z)
    : AnswerDataList :=
  default [] (answer_lists (redis w)
                !! ("game_session:" +:+ game_pin +:+ ":" +:+ pretty q_index)).

(** The records of one player among them. *)
Definition answers_of (username : string) (l : AnswerDataList) : AnswerDataList :=
  filter (λ a, AnswerData.username a = username) l.

(** The running score total of a player. *)
Definition player_score (w : World) (game_pin username : string) : Z :=
  hash_get (redis w) ("game_session:" +:+ game_pin +:+ ":player_scores") username.

(** The size of the roster of a game, as [scard] gives it. *)
Definition player_count (w : World) (game_pin : string) : Z :=
  Z.of_nat (size (default ∅ (sets (redis w)
                               !! ("game_session:" +:+ game_pin +:+ ":players")))).


(** The frames sent to a connection so far. *)
Definition sent_to (ws : WebSocket) (w : World) : list WsAction :=
  (filter (λ x, x.1 = ws) (ws_log w)).*2.

(** A sequence of calls of [submit_answer_fn] for one game, each a handler
    run of its own: what a call raises ends that call only. *)
Fixpoint submit_all (calculate_score : Q → Z → Z) (int_float : string → outcome Z)
    (game_pin : string) (calls : list (Z * string * datetime)) (w : World) : World :=
  match calls with
  | [] => w
  | (data_answer, player_id, now) :: calls =>
      submit_all calculate_score int_float game_pin calls
        (submit_answer_fn calculate_score int_float data_answer game_pin player_id now w).2
  end.

(** ** A scoring policy and a game to run the handlers on *)

(** Modelled from the spec: a policy for [calculate_score], which is not
    among the sources, within the contract of the scoring engine: a score
    between 0 and 1000 that does not grow with the elapsed time. *)
Definition linear_score (z : Q) (t : Z) : Z :=
  if t <=? 0 then 0
  else Z.max 0 (1000 - Z.max 0 (Qfloor (z / inject_Z t))).

Fixpoint digits_value (s : string) (acc : Z) : option Z :=
  match s with
  | EmptyString => Some acc
  | String c s' =>
      let n := Z.of_N (N_of_ascii c) in
      if (48 <=? n) && (n <=? 57) then digits_value s' (10 * acc + (n - 48))
      else None
  end.

(** [int(float(s))] where [s] is a string of decimal digits; any other
    string is taken as one [float] refuses. *)
Definition int_float_digits (s : string) : outcome Z :=
  match s with
  | EmptyString => Raise ValueError
  | _ => match digits_value s 0 with
         | Some n => Ok n
         | None => Raise ValueError
         end
  end.

Definition abcd (r : bool) (a : string) : ABCDQuizAnswer.t :=
  {| ABCDQuizAnswer.right := r; ABCDQuizAnswer.answer := a;
     ABCDQuizAnswer.color := None |}.

Definition make_question (ty : QuizQuestionType) (a : QuizAnswers) : QuizQuestion.t :=
  {| QuizQuestion.question := "Which one?"; QuizQuestion.time := "20";
     QuizQuestion.type := Some ty; QuizQuestion.answers := a;
     QuizQuestion.image := None |}.

(** A choice question with three options, "B" the right one. *)
Definition choice_question : QuizQuestion.t :=
  make_question ABCD (AnswersABCD [abcd false "A"; abcd true "B"; abcd false "C"]).

Definition make_game (q : QuizQuestion.t) (started : bool) (current : Z)
    (show : bool) : PlayGame.t :=
  {| PlayGame.quiz_id := "quiz"; PlayGame.description := "";
     PlayGame.user_id := "host"; PlayGame.title := "Quiz";
     PlayGame.questions := [q]; PlayGame.game_id := "game";
     PlayGame.game_pin := "482913"; PlayGame.started := started;
     PlayGame.captcha_enabled := false; PlayGame.cover_image := None;
     PlayGame.game_mode := None; PlayGame.current_question := current;
     PlayGame.background_color := None; PlayGame.background_image := None;
     PlayGame.custom_field := None; PlayGame.question_show := show |}.

Definition empty_redis : Redis :=
  {| strs := ∅; games := ∅; times := ∅; answer_lists := ∅; hashes := ∅; sets := ∅ |}.

(** The game of pin 482913, reachable by the code 123456, in its lobby. *)
Definition lobby : World :=
  {| redis :=
       {| strs := {[ "game:cqc:code:123456" := "482913" ]};
          games := {[ "game:482913" := make_game choice_question false (-1) false ]};
          times := ∅; answer_lists := ∅; hashes := ∅; sets := ∅ |};
     wss_clients := ∅; sio_emitted := []; ws_log := [] |}.

Definition player (u : string) : GamePlayer.t :=
  {| GamePlayer.username := u; GamePlayer.sid := None |}.

(** The same game with Alice and Bob on the roster and question 0, [q],
    activated at time 0; [show] is its [question_show].  The socket of Bob
    is connected, the one of Alice is not. *)
Definition playing (q : QuizQuestion.t) (show : bool) : World :=
  {| redis :=
       {| strs := {[ "game:cqc:code:123456" := "482913";
                     "game:cqc:player:00000000a1" := "Alice";
                     "game:cqc:player:00000000b0" := "Bob" ]};
          games := {[ "game:482913" := make_game q true 0 show ]};
          times := {[ "game:482913:current_time" := 0 ]};
          answer_lists := ∅; hashes := ∅;
          sets := {[ "game_session:482913:players" := {[ player "Alice"; player "Bob" ]} ]} |};
     wss_clients := {[ "00000000b0:482913" := 2%nat ]};
     sio_emitted := []; ws_log := [] |}.

(** The world after an answer record [a] of a player was taken for
    question [q_index]: the score added to the running total, the record
    added to the answers of the question, and "everyone_answered" emitted
    when the answers are as many as the roster. *)
Definition record_answer (w : World) (game_pin : string) (q_index : Z)
    (a : AnswerData.t) : World :=
  let scores := "game_session:" +:+ game_pin +:+ ":player_scores" in
  let answers := recorded_answers w game_pin q_index ++ [a] in
  {| redis :=
       {| strs := strs (redis w); games := games (redis w);
          times := times (redis w);
          answer_lists :=
            <["game_session:" +:+ game_pin +:+ ":" +:+ pretty q_index := answers]>
              (answer_lists (redis w));
          hashes :=
            <[scores := <[AnswerData.username a :=
                            player_score w game_pin (AnswerData.username a)
                            + AnswerData.score a]>
                          (default ∅ (hashes (redis w) !! scores))]>
              (hashes (redis w));
          sets := sets (redis w) |};
     wss_clients := wss_clients w;
     sio_emitted :=
       sio_emitted w ++
       (if Z.of_nat (length answers) =? player_count w game_pin
        then [{| event := "everyone_answered"; data := DataEmpty; room := None |}]
        else []);
     ws_log := ws_log w |}.

(** The number of answer options of a question, where its answers are a
    list. *)
Definition answer_options (answers : QuizAnswers) : option nat :=
  match answers with
  | AnswersABCD l => Some (length l)
  | AnswersText l => Some (length l)
  | AnswersVoting l => Some (length l)
  | AnswersRange _ | AnswersStr _ => None
  end.

(** Whether a character occurs in a string. *)
Fixpoint str_contains (c : ascii) (s : string) : bool :=
  match s with
  | EmptyString => false
  | String c' s' => Ascii.eqb c' c || str_contains c s'
  end.

(** The digits of lowercase hexadecimal. *)
Definition is_lower_hex (c : ascii) : bool :=
  let n := N_of_ascii c in
  (((48 <=? n) && (n <=? 57)) || ((97 <=? n) && (n <=? 102)))%N.

Fixpoint str_forall (p : ascii → bool) (s : string) : bool :=
  match s with
  | EmptyString => true
  | String c s' => p c && str_forall p s'
  end.

(** A press of a button of the box, as a frame of the socket. *)
Definition button_press (button : string) : WebSocketRequest.t :=
  {| WebSocketRequest.type := ButtonPress; WebSocketRequest.data := AnyStr button |}.

Definition text_question : QuizQuestion.t :=
  make_question TEXT
    (AnswersText [ {| TextQuizAnswer.answer := "Paris";
                      TextQuizAnswer.case_sensitive := false |} ]).

Definition voting_question : QuizQuestion.t :=
  make_question VOTING
    (AnswersVoting [ {| VotingQuizAnswer.answer := "Tea";
                        VotingQuizAnswer.image := None;
                        VotingQuizAnswer.color := None |};
                     {| VotingQuizAnswer.answer := "Coffee";
                        VotingQuizAnswer.image := None;
                        VotingQuizAnswer.color := None |} ]).

(** The guards a submission passes before anything is written. *)
Record reaches_grading (w : World) (data_answer : Z) (game_pin player_id : string)
    (game : PlayGame.t) (username : string) (question : QuizQuestion.t)
    (question_time : Z) (selected_answer : string) : Prop := {
  rg_game : games (redis w) !! ("game:" +:+ game_pin) = Some game;
  rg_user : strs (redis w) !! ("game:cqc:player:" +:+ player_id) = Some username;
  rg_show : PlayGame.question_show game = true;
  rg_question :
    list_getitem (PlayGame.questions game) (PlayGame.current_question game)
    = Ok question;
  rg_time :
    times (redis w) !! ("game:" +:+ game_pin +:+ ":current_time")
    = Some question_time;
  rg_selected :
    answers_getitem_answer (QuizQuestion.answers question) data_answer
    = Ok selected_answer;
}.

(** ** The validator of [QuizQuestion.answers] *)

#[global] Instance QuizQuestionType_eq_dec : EqDecision QuizQuestionType.
Proof. solve_decision. Defined.

(** The classes [type(v[0])] is compared with. *)
Inductive ItemType :=
| IsABCDQuizAnswer
| IsTextQuizAnswer
| IsVotingQuizAnswer
| IsStr.

#[global] Instance ItemType_eq_dec : EqDecision ItemType.
Proof. solve_decision. Defined.

(** [type(v[0])] *)
Definition type_of_first (v : QuizAnswers) : outcome ItemType :=
  match v with
  | AnswersABCD l =>
      match list_getitem l 0 with
      | Ok _ => Ok IsABCDQuizAnswer
      | Raise e => Raise e
      end
  | AnswersRange _ => Raise TypeError       (* not subscriptable *)
  | AnswersText l =>
      match list_getitem l 0 with
      | Ok _ => Ok IsTextQuizAnswer
      | Raise e => Raise e
      end
  | AnswersVoting l =>
      match list_getitem l 0 with
      | Ok _ => Ok IsVotingQuizAnswer
      | Raise e => Raise e
      end
  | AnswersStr s =>
      match str_getitem s 0 with
      | Ok _ => Ok IsStr
      | Raise e => Raise e
      end
  end.

(** [type(v) != RangeQuizAnswer] *)
Definition is_not_range (v : QuizAnswers) : bool :=
  match v with
  | AnswersRange _ => false
  | _ => true
  end.

(** One [if values["type"] == t and <test>: raise ValueError(...)] of the
    validator, followed by the rest of it; the test is only evaluated for
    the type it belongs to. *)
Definition raise_if (ty : option QuizQuestionType) (t : QuizQuestionType)
    (test : outcome bool) (rest : outcome QuizAnswers) : outcome QuizAnswers :=
  if decide (ty = Some t) then
    match test with
    | Ok true => Raise ValueError
    | Ok false => rest
    | Raise e => Raise e
    end
  else rest.

(** [type(v[0]) != c] *)
Definition first_is_not (c : ItemType) (v : QuizAnswers) : outcome bool :=
  match type_of_first v with
  | Ok c' => Ok (negb (bool_decide (c' = c)))
  | Raise e => Raise e
  end.

(** [QuizQuestion.answers_not_none_if_abcd_type(cls, v, values)], with
    [ty] for [values["type"]].  It raises as the Python function does;
    turning a [ValueError] into a validation error is pydantic's part. *)
Definition answers_not_none_if_abcd_type (ty : option QuizQuestionType)
    (v : QuizAnswers) : outcome QuizAnswers :=
  raise_if ty ABCD (first_is_not IsABCDQuizAnswer v)
  (raise_if ty RANGE (Ok (is_not_range v))
  (raise_if ty VOTING (first_is_not IsVotingQuizAnswer v)
  (raise_if ty TEXT (first_is_not IsTextQuizAnswer v)
  (raise_if ty ORDER (first_is_not IsVotingQuizAnswer v)
  (raise_if ty SLIDE (first_is_not IsStr v)
  (Ok v)))))).

(** ** More observations *)

(** The worlds a handler may leave behind without touching the game, the
    players, the clock, the roster or the registry. *)
Definition keeps_session (w w' : World) : Prop :=
  strs (redis w') = strs (redis w)
  ∧ games (redis w') = games (redis w)
  ∧ times (redis w') = times (redis w)
  ∧ sets (redis w') = sets (redis w)
  ∧ wss_clients w' = wss_clients w.

(** The sum of the scores of some answer records. *)
Definition total_score (l : AnswerDataList) : Z :=
  foldr (λ a s, AnswerData.score a + s) 0 l.

(** How often a character occurs in a string. *)
Fixpoint str_count (c : ascii) (s : string) : nat :=
  match s with
  | EmptyString => 0%nat
  | String c' s' => ((if Ascii.eqb c' c then 1 else 0) + str_count c s')%nat
  end.

(** The reasons of the error frames the loop of the socket answers a
    frame with, when the frame is not a press of a known button. *)
Definition error_replies (f : Inbound) : list string :=
  match f with
  | Receive _ None => ["ValidationError"]
  | Receive _ (Some r) =>
      match WebSocketRequest.type r, button_index (WebSocketRequest.data r) with
      | ButtonPress, Raise _ => ["InvalidButton"]
      | _, _ => []
      end
  | Disconnected => []
  end.

(** Whether a frame is a press of one of the four buttons. *)
Definition is_press (f : Inbound) : bool :=
  match f with
  | Receive _ (Some r) =>
      match WebSocketRequest.type r, button_index (WebSocketRequest.data r) with
      | ButtonPress, Ok _ => true
      | _, _ => false
      end
  | _ => false
  end.

(** The world once a socket was accepted and registered under [id] and
    its player, known as [username], was announced to the host and put on
    the roster of [game_pin]. *)
Definition connected (w : World) (ws : WebSocket) (id game_pin : string)
    (username : string) : World :=
  let roster := "game_session:" +:+ game_pin +:+ ":players" in
  {| redis :=
       {| strs := strs (redis w); games := games (redis w);
          times := times (redis w); answer_lists := answer_lists (redis w);
          hashes := hashes (redis w);
          sets := <[roster := {[player username]}
                              ∪ default ∅ (sets (redis w) !! roster)]>
                    (sets (redis w)) |};
     wss_clients := <[id := ws]> (wss_clients w);
     sio_emitted :=
       sio_emitted w ++
       [{| event := "player_joined"; data := DataPlayer (Some username) None;
           room := Some ("admin:" +:+ game_pin) |}];
     ws_log := ws_log w ++ [(ws, WsAccept)] |}.

(** A choice question whose right option and a wrong one carry the same
    text. *)
Definition twin_question : QuizQuestion.t :=
  make_question ABCD (AnswersABCD [abcd false "4"; abcd true "4"; abcd false "5"]).

(** * Properties *)

(** ** Strings *)

Lemma hex_digits_of_byte (x : Byte.byte) :
  let n := Byte.to_N x in
  is_lower_hex (hex_digit (n / 16)) = true
  ∧ is_lower_hex (hex_digit (n mod 16)) = true.
Proof. by destruct x. Qed.

Lemma bytes_hex_length (b : list Byte.byte) :
  String.length (bytes_hex b) = (2 * length b)%nat.
Proof. induction b as [|x b IH]; simpl; [done|]. rewrite IH. lia. Qed.

Lemma bytes_hex_lower_hex (b : list Byte.byte) :
  str_forall is_lower_hex (bytes_hex b) = true.
Proof.
  induction b as [|x b IH]; [done|].
  destruct (hex_digits_of_byte x) as [Hhi Hlo].
  cbn [bytes_hex str_forall]. by rewrite Hhi, Hlo, IH.
Qed.

Lemma lower_hex_no_separator (s : string) :
  str_forall is_lower_hex s = true → str_contains ":" s = false.
Proof.
  induction s as [|c s IH]; [done|]. cbn [str_forall str_contains].
  intros [Hc Hs]%andb_true_iff. rewrite (IH Hs), orb_false_r.
  destruct (Ascii.eqb_spec c ":") as [->|]; [discriminate|done].
Qed.

Lemma str_split_none (sep : ascii) (s : string) :
  str_contains sep s = false → str_split sep s = [s].
Proof.
  induction s as [|c s IH]; [done|]. cbn [str_contains str_split].
  intros [Hc Hs]%orb_false_iff. by rewrite Hc, (IH Hs).
Qed.

Lemma str_split_first (sep : ascii) (s t : string) :
  str_contains sep s = false →
  str_split sep (s +:+ String sep t) = s :: str_split sep t.
Proof.
  induction s as [|c s IH].
  - intros _. change ("" +:+ String sep t) with (String sep t).
    cbn [str_split]. by rewrite Ascii.eqb_refl.
  - change (String c s +:+ String sep t) with (String c (s +:+ String sep t)).
    cbn [str_contains str_split].
    intros [Hc Hs]%orb_false_iff. by rewrite Hc, (IH Hs).
Qed.

(** ** The sample scoring policy keeps the contract of the scoring engine *)

Lemma linear_score_bounded (z : Q) (t : Z) : 0 ≤ linear_score z t ≤ 1000.
Proof. unfold linear_score. destruct (t <=? 0); lia. Qed.

Lemma linear_score_faster_not_lower (z1 z2 : Q) (t : Z) :
  (z1 <= z2)%Q → linear_score z2 t ≤ linear_score z1 t.
Proof.
  intros Hz. unfold linear_score.
  destruct (Z.leb_spec t 0) as [|Ht]; [done|].
  assert (Qfloor (z1 / inject_Z t) ≤ Qfloor (z2 / inject_Z t)); [|lia].
  apply Qfloor_resp_le, Qmult_le_compat_r; [done|].
  apply Qinv_le_0_compat. change 0%Q with (inject_Z 0). rewrite <- Zle_Qle. lia.
Qed.

(** ** The monad *)

Lemma bind_Ok {A B} (m : M A) (k : A → M B) w a w1 :
  m w = (Ok a, w1) → bind m k w = k a w1.
Proof. intros H. unfold bind. by rewrite H. Qed.

Lemma bind_Ok_inv {A B} (m : M A) (k : A → M B) w b w' :
  bind m k w = (Ok b, w') → ∃ a w1, m w = (Ok a, w1) ∧ k a w1 = (Ok b, w').
Proof.
  unfold bind. destruct (m w) as [[a|e] w1]; [eauto|discriminate].
Qed.

Section SubmitPaths.

Variable calculate_score : Q → Z → Z.
Variable int_float : string → outcome Z.

Notation submit := (submit_answer_fn calculate_score int_float).

(** The elapsed time of a submission, in milliseconds. *)
Notation elapsed question_time now := (Qabs (Qmake (question_time - now) 1000)).

(** *** [submit_answer_fn], path by path *)

Local Ltac run_submit :=
  unfold submit_answer_fn, bind, redis_get_game, redis_get, redis_get_time,
    lift, try_except, PlayGame_parse_raw, datetime_fromisoformat, ret, raise;
  simpl;
  repeat match goal with
         | H : ?x = _ |- context [?x] => rewrite H; simpl
         end.

Local Ltac accepted_world :=
  unfold record_answer, recorded_answers, player_score, player_count,
    sio_emit, ret, with_redis;
  simpl; destruct (_ =? _); rewrite ?app_nil_r; reflexivity.

Lemma submit_answer_fn_accepts data_answer game_pin player_id now w
    game username question question_time selected_answer answer_right score :
  reaches_grading w data_answer game_pin player_id game username question
    question_time selected_answer →
  (QuizQuestion.type question = Some ABCD
     ∧ answers_loop (QuizQuestion.answers question) selected_answer = Ok answer_right
   ∨ QuizQuestion.type question = Some VOTING ∧ answer_right = false) →
  (if answer_right
   then ∃ t, int_float (QuizQuestion.time question) = Ok t
             ∧ score = calculate_score (elapsed question_time now) t
   else score = 0) →
  submit data_answer game_pin player_id now w =
    (Ok tt, record_answer w game_pin (PlayGame.current_question game)
              {| AnswerData.username := username;
                 AnswerData.answer := selected_answer;
                 AnswerData.right := answer_right;
                 AnswerData.time_taken := elapsed question_time now;
                 AnswerData.score := score |}).
Proof.
  intros [Hg Hu Hshow Hq Ht Hsel] Hty Hsc.
  unfold submit_answer_fn, bind, redis_get_game, redis_get, redis_get_time, lift.
  rewrite Hg, Hu. simpl. rewrite Hshow. simpl. rewrite Hq, Ht. simpl.
  unfold try_except, bind, lift. rewrite Hsel. simpl.
  destruct Hty as [[Hty Hl]|[Hty ->]]; rewrite Hty; simpl.
  - rewrite Hl. simpl. destruct answer_right.
    + destruct Hsc as (t & Hif & ->). rewrite Hif. simpl. accepted_world.
    + subst score. simpl. accepted_world.
  - subst score. simpl. accepted_world.
Qed.

Lemma submit_answer_fn_cases data_answer game_pin player_id now w :
  (submit data_answer game_pin player_id now w).2 = w
  ∨ ∃ game username question question_time selected_answer answer_right score,
      reaches_grading w data_answer game_pin player_id game username question
        question_time selected_answer
      ∧ (QuizQuestion.type question = Some ABCD
           ∧ answers_loop (QuizQuestion.answers question) selected_answer
             = Ok answer_right
         ∨ QuizQuestion.type question = Some VOTING ∧ answer_right = false)
      ∧ (if answer_right
         then ∃ t, int_float (QuizQuestion.time question) = Ok t
                   ∧ score = calculate_score (elapsed question_time now) t
         else score = 0)
      ∧ submit data_answer game_pin player_id now w =
          (Ok tt, record_answer w game_pin (PlayGame.current_question game)
                    {| AnswerData.username := username;
                       AnswerData.answer := selected_answer;
                       AnswerData.right := answer_right;
                       AnswerData.time_taken := elapsed question_time now;
                       AnswerData.score := score |}).
Proof.
  destruct (games (redis w) !! ("game:" +:+ game_pin)) as [game|] eqn:Hg;
    [|left; by run_submit].
  destruct (strs (redis w) !! ("game:cqc:player:" +:+ player_id))
    as [username|] eqn:Hu; [|left; by run_submit].
  destruct (PlayGame.question_show game) eqn:Hshow; [|left; by run_submit].
  destruct (list_getitem (PlayGame.questions game) (PlayGame.current_question game))
    as [question|e] eqn:Hq; [|left; by run_submit].
  destruct (times (redis w) !! ("game:" +:+ game_pin +:+ ":current_time"))
    as [question_time|] eqn:Ht; [|left; by run_submit].
  destruct (answers_getitem_answer (QuizQuestion.answers question) data_answer)
    as [selected_answer|e] eqn:Hsel; [|left; run_submit; by destruct e].
  assert (Hreach : reaches_grading w data_answer game_pin player_id game username
                     question question_time selected_answer) by done.
  destruct (QuizQuestion.type question) as [[]|] eqn:Hty;
    try (left; by run_submit).
  - destruct (answers_loop (QuizQuestion.answers question) selected_answer)
      as [[]|e] eqn:Hl; [| |left; by run_submit].
    + destruct (int_float (QuizQuestion.time question)) as [t|e] eqn:Hif;
        [|left; by run_submit].
      right. exists game, username, question, question_time, selected_answer,
        true, (calculate_score (elapsed question_time now) t).
      assert (∃ t0, int_float (QuizQuestion.time question) = Ok t0
                    ∧ calculate_score (elapsed question_time now) t
                      = calculate_score (elapsed question_time now) t0)
        by eauto.
      split_and!; [done|by left|done|].
      eapply submit_answer_fn_accepts; [exact Hreach|by left|done].
    + right. exists game, username, question, question_time, selected_answer,
        false, 0.
      split_and!; [done|by left|done|].
      eapply submit_answer_fn_accepts; [exact Hreach|by left|done].
  - right. exists game, username, question, question_time, selected_answer,
      false, 0.
    split_and!; [done|by right|done|].
    eapply submit_answer_fn_accepts; [exact Hreach|by right|done].
Qed.



End SubmitPaths.

Lemma receive_loop_app cs ifl ws game_pin player_id inbox rest w w1 :
  receive_loop cs ifl ws game_pin player_id inbox w = (Ok Receiving, w1) →
  receive_loop cs ifl ws game_pin player_id (inbox ++ rest) w
  = receive_loop cs ifl ws game_pin player_id rest w1.
Proof.
  revert w. induction inbox as [|[now [data|]|] inbox IH]; intros w; simpl.
  - by intros [= ->].
  - destruct (WebSocketRequest.type data); [|by apply IH].
    intros H. apply bind_Ok_inv in H as ([i|] & w0 & Hi & H).
    + apply bind_Ok_inv in H as ([] & w2 & Hs & H).
      unfold bind at 1. rewrite Hi. unfold bind at 1. rewrite Hs. by apply IH.
    + unfold bind at 1. rewrite Hi. by apply IH.
  - intros H. apply bind_Ok_inv in H as ([] & w0 & Hs & H).
    unfold bind at 1. rewrite Hs. by apply IH.
  - discriminate.
Qed.


(** ** Answer submission *)




(** C2, as stated, fails: with the question closed, Alice's press comes
    back exactly as an accepted one does, with no value, and the loop of
    her socket sends her nothing. *)
Lemma late_answer_dropped_silently :
  let w := playing choice_question false in
  submit_answer_fn linear_score int_float_digits 1 "482913" "00000000a1" 5000000 w
    = (Ok tt, w)
  ∧ (submit_answer_fn linear_score int_float_digits 1 "482913" "00000000a1"
       5000000 (playing choice_question true)).1 = Ok tt
  ∧ receive_loop linear_score int_float_digits 1%nat "482913" "00000000a1"
      [Receive 5000000 (Some (button_press "g"))] w
    = (Ok Receiving, w).
Proof. vm_compute. done. Qed.

(** C2, amended: a submission of a known player to a known game whose
    [question_show] is false writes no score and no answer record; the call
    returns without a value and without raising, and the loop of the
    socket goes on to the next frame with nothing sent to the submitter. *)
Theorem closed_question_drops_submission calculate_score int_float
    data_answer game_pin player_id now w game username :
  games (redis w) !! ("game:" +:+ game_pin) = Some game →
  strs (redis w) !! ("game:cqc:player:" +:+ player_id) = Some username →
  PlayGame.question_show game = false →
  submit_answer_fn calculate_score int_float data_answer game_pin player_id now w
    = (Ok tt, w)
  ∧ ∀ ws inbox d,
      button_index d = Ok data_answer →
      receive_loop calculate_score int_float ws game_pin player_id
        (Receive now (Some {| WebSocketRequest.type := ButtonPress;
                              WebSocketRequest.data := d |}) :: inbox) w
      = receive_loop calculate_score int_float ws game_pin player_id inbox w.
Proof.
  intros Hg Hu Hshow.
  assert (Hsub : submit_answer_fn calculate_score int_float data_answer game_pin
                   player_id now w = (Ok tt, w)).
  { unfold submit_answer_fn, bind, redis_get_game, redis_get.
    rewrite Hg, Hu. simpl. by rewrite Hshow. }
  split; [done|]. intros ws inbox d Hd. simpl.
  unfold try_except, bind at 1 2, lift. rewrite Hd. simpl.
  unfold bind at 1. by rewrite Hsub.
Qed.

(** C2, amended, at work: Alice's press on the closed question. *)
Lemma closed_question_drops_submission_witness :
  let w := playing choice_question false in
  submit_answer_fn linear_score int_float_digits 1 "482913" "00000000a1" 5000000 w
    = (Ok tt, w).
Proof.
  intros w.
  apply (closed_question_drops_submission linear_score int_float_digits
           1 "482913" "00000000a1" 5000000 w
           (make_game choice_question true 0 false) "Alice");
    reflexivity.
Defined.



Lemma list_getitem_raises {A} (l : list A) (i : Z) e :
  list_getitem l i = Raise e → e = IndexError.
Proof. unfold list_getitem. repeat case_match; congruence. Qed.

Lemma list_getitem_out_of_range {A} (l : list A) (i : Z) :
  Z.of_nat (length l) ≤ i → list_getitem l i = Raise IndexError.
Proof.
  intros Hi. unfold list_getitem.
  destruct (Z.ltb_spec i 0) as [?|_]; [lia|].
  destruct (Z.ltb_spec i (Z.of_nat (length l))) as [?|_]; [lia|].
  by rewrite andb_false_r.
Qed.

(** C4: whenever a submission is processed, that is, a record [a] is added
    to the answers of the question, a wrong answer has score 0 and leaves
    the running total where it was; an answer to a VOTING question is wrong
    and has score 0 whatever was selected; and the outcome of a wrong
    answer is the same under every scoring function and every reading of
    the time limit: the scoring function has no part in it. *)
Theorem wrong_answer_scores_zero calculate_score int_float
    data_answer game_pin player_id now w game question a :
  games (redis w) !! ("game:" +:+ game_pin) = Some game →
  list_getitem (PlayGame.questions game) (PlayGame.current_question game)
    = Ok question →
  let q := PlayGame.current_question game in
  let r := submit_answer_fn calculate_score int_float data_answer game_pin
             player_id now w in
  recorded_answers r.2 game_pin q = recorded_answers w game_pin q ++ [a] →
  (AnswerData.right a = false → AnswerData.score a = 0)
  ∧ (QuizQuestion.type question = Some VOTING →
     AnswerData.right a = false ∧ AnswerData.score a = 0)
  ∧ player_score r.2 game_pin (AnswerData.username a)
    = player_score w game_pin (AnswerData.username a) + AnswerData.score a
  ∧ (AnswerData.right a = false →
     ∀ calculate_score' int_float',
       submit_answer_fn calculate_score' int_float' data_answer game_pin
         player_id now w = r).
Proof.
  intros Hg Hq q r Hrec. subst r.
  destruct (submit_answer_fn_cases calculate_score int_float data_answer game_pin
              player_id now w)
    as [Hw|(game0 & u & qu & qt & sel & ar & sc & Hr & Hty & Hsc & Hsub)].
  { rewrite Hw in Hrec. apply (f_equal length) in Hrec.
    rewrite length_app in Hrec. simpl in Hrec. lia. }
  pose proof Hr as [Hg0 _ _ Hq0 _ _].
  rewrite Hg in Hg0. injection Hg0 as <-.
  rewrite Hq in Hq0. injection Hq0 as <-.
  rewrite Hsub in Hrec |- *. cbn [snd] in Hrec |- *. fold q in Hrec |- *.
  unfold recorded_answers at 1 in Hrec. simpl in Hrec.
  rewrite lookup_insert_eq in Hrec. simpl in Hrec.
  apply app_inv_head in Hrec. injection Hrec as <-. simpl.
  assert (Hwrong : ar = false → sc = 0) by (by intros ->).
  split_and!.
  - done.
  - intros Hv. destruct Hty as [[Hty _]|[_ ->]]; [congruence|done].
  - unfold player_score at 1, hash_get. simpl. rewrite lookup_insert_eq. simpl.
    by rewrite lookup_insert_eq.
  - intros -> calculate_score' int_float'. rewrite (Hwrong eq_refl).
    eapply submit_answer_fn_accepts; [exact Hr|exact Hty|done].
Qed.

(** C4 at work: Bob picks "A", which is wrong; his total stays. *)
Lemma wrong_answer_scores_zero_witness :
  let w := playing choice_question true in
  let r := submit_answer_fn linear_score int_float_digits 0 "482913"
             "00000000b0" 3000000 w in
  player_score r.2 "482913" "Bob" = player_score w "482913" "Bob" + 0.
Proof.
  intros w r.
  refine (proj1 (proj2 (proj2
    (wrong_answer_scores_zero linear_score int_float_digits
       0 "482913" "00000000b0" 3000000 w
       (make_game choice_question true 0 true) choice_question
       {| AnswerData.username := "Bob"; AnswerData.answer := "A";
          AnswerData.right := false; AnswerData.time_taken := Qmake 3000000 1000;
          AnswerData.score := 0 |} _ _ _)))); reflexivity.
Defined.

(** A vote is processed and scores nothing, whichever option is taken. *)
Example vote_scores_nothing :
  let w := (submit_answer_fn linear_score int_float_digits 1 "482913"
              "00000000a1" 5000000 (playing voting_question true)).2 in
  (AnswerData.right <$> recorded_answers w "482913" 0) = [false]
  ∧ (AnswerData.score <$> recorded_answers w "482913" 0) = [0]
  ∧ player_score w "482913" "Alice" = 0.
Proof. vm_compute. done. Qed.

(** C8, as stated, fails: Alice's press on a TEXT question leaves no
    answer record behind. *)
Lemma text_answer_not_recorded :
  let w := playing text_question true in
  let r := submit_answer_fn linear_score int_float_digits 0 "482913"
             "00000000a1" 5000000 w in
  r = (Ok tt, w) ∧ recorded_answers r.2 "482913" 0 = [].
Proof. vm_compute. done. Qed.

(** C8, amended: a submission to a question of type RANGE, TEXT, ORDER or
    SLIDE is neither recorded nor scored: the call leaves the store, and
    the rest of the world, as it found them. *)
Theorem other_types_not_recorded calculate_score int_float
    data_answer game_pin player_id now w game question ty :
  games (redis w) !! ("game:" +:+ game_pin) = Some game →
  list_getitem (PlayGame.questions game) (PlayGame.current_question game)
    = Ok question →
  QuizQuestion.type question = Some ty →
  ty ∈ [RANGE; TEXT; ORDER; SLIDE] →
  (submit_answer_fn calculate_score int_float data_answer game_pin player_id
     now w).2 = w.
Proof.
  intros Hg Hq Hty Hin.
  destruct (submit_answer_fn_cases calculate_score int_float data_answer game_pin
              player_id now w)
    as [Hw|(game0 & u & qu & qt & sel & ar & sc & Hr & Hty' & _)]; [done|].
  destruct Hr as [Hg0 _ _ Hq0 _ _].
  rewrite Hg in Hg0. injection Hg0 as <-.
  rewrite Hq in Hq0. injection Hq0 as <-.
  rewrite Hty in Hty'.
  assert (ty ≠ ABCD ∧ ty ≠ VOTING) as [? ?]
    by (rewrite !elem_of_cons, elem_of_nil in Hin; intuition congruence).
  destruct Hty' as [[? _]|[? _]]; congruence.
Qed.

(** C8, amended, at work: Alice's press on the TEXT question. *)
Lemma other_types_not_recorded_witness :
  (submit_answer_fn linear_score int_float_digits 0 "482913" "00000000a1"
     5000000 (playing text_question true)).2 = playing text_question true.
Proof.
  apply (other_types_not_recorded linear_score int_float_digits
           0 "482913" "00000000a1" 5000000 (playing text_question true)
           (make_game text_question true 0 true) text_question TEXT);
    [reflexivity..|]. apply list_elem_of_further, list_elem_of_here.
Defined.

(** C9: a submission that reaches the lookup [question.answers[data_answer]]
    with an index at or past the number of answer options is not turned
    into a return by the [except KeyError] clause: the call raises
    [IndexError], and so does the loop of the socket that made it. *)
Theorem index_past_options_raises calculate_score int_float
    data_answer game_pin player_id now w game username question question_time n :
  games (redis w) !! ("game:" +:+ game_pin) = Some game →
  strs (redis w) !! ("game:cqc:player:" +:+ player_id) = Some username →
  PlayGame.question_show game = true →
  list_getitem (PlayGame.questions game) (PlayGame.current_question game)
    = Ok question →
  times (redis w) !! ("game:" +:+ game_pin +:+ ":current_time") = Some question_time →
  answer_options (QuizQuestion.answers question) = Some n →
  Z.of_nat n ≤ data_answer →
  submit_answer_fn calculate_score int_float data_answer game_pin player_id now w
    = (Raise IndexError, w)
  ∧ (∀ answers i, answers_getitem_answer answers i ≠ Raise KeyError)
  ∧ ∀ ws inbox d,
      button_index d = Ok data_answer →
      receive_loop calculate_score int_float ws game_pin player_id
        (Receive now (Some {| WebSocketRequest.type := ButtonPress;
                              WebSocketRequest.data := d |}) :: inbox) w
      = (Raise IndexError, w).
Proof.
  intros Hg Hu Hshow Hq Ht Hn Hi.
  assert (Hkey : ∀ answers i, answers_getitem_answer answers i ≠ Raise KeyError).
  { intros [l|r|l|l|s] i; simpl; [| done | | |];
      (unfold str_getitem;
       destruct (list_getitem _ i) as [?|e] eqn:Hi0; [done|];
       by rewrite (list_getitem_raises _ _ _ Hi0)). }
  assert (Hsel : answers_getitem_answer (QuizQuestion.answers question) data_answer
                 = Raise IndexError).
  { destruct (QuizQuestion.answers question); simpl in Hn |- *;
      try discriminate; injection Hn as <-;
      by rewrite list_getitem_out_of_range. }
  assert (Hsub : submit_answer_fn calculate_score int_float data_answer game_pin
                   player_id now w = (Raise IndexError, w)).
  { unfold submit_answer_fn, bind, redis_get_game, redis_get, redis_get_time, lift.
    rewrite Hg, Hu. simpl. rewrite Hshow. simpl. rewrite Hq, Ht. simpl.
    unfold try_except, bind, lift. by rewrite Hsel. }
  split_and!; [done..|]. intros ws inbox d Hd. simpl.
  unfold try_except, bind at 1 2, lift. rewrite Hd. simpl.
  unfold bind at 1. by rewrite Hsub.
Qed.

(** C9 at work: the red button is index 3, the question has three
    options. *)
Lemma index_past_options_raises_witness :
  button_index (AnyStr "R") = Ok 3
  ∧ submit_answer_fn linear_score int_float_digits 3 "482913" "00000000a1"
      5000000 (playing choice_question true)
    = (Raise IndexError, playing choice_question true).
Proof.
  split; [reflexivity|].
  apply (index_past_options_raises linear_score int_float_digits
           3 "482913" "00000000a1" 5000000 (playing choice_question true)
           (make_game choice_question true 0 true) "Alice" choice_question 0
           3%nat); reflexivity.
Defined.

(** ** Joining *)

(** C5 at its failing input: two joins under the name Alice in the same
    lobby, the socket of the first one connected in between; the second
    join is given an identity as well. *)
Lemma join_same_name_twice :
  let alice := {| JoinGameInput.code := "123456"; JoinGameInput.name := "Alice" |} in
  let first := join_game alice [Byte.x00; Byte.x00; Byte.x00; Byte.x00; Byte.xa1] lobby in
  let connected :=
    websocket_endpoint linear_score int_float_digits 1%nat
      "00000000a1:482913" "00000000a1:482913" [] first.2 in
  let second :=
    join_game alice [Byte.x00; Byte.x00; Byte.x00; Byte.x00; Byte.xb0] connected.2 in
  first.1 = Ok {| JoinGameResponse.id := "00000000a1:482913" |}
  ∧ connected.1 = Ok Receiving
  ∧ player (JoinGameInput.name alice)
      ∈ default ∅ (sets (redis connected.2) !! "game_session:482913:players")
  ∧ second.1 = Ok {| JoinGameResponse.id := "00000000b0:482913" |}.
Proof. vm_compute. done. Qed.

(** C10: the identity a successful join hands out splits on ":" into the
    player id it minted and the game pin, when the pin has no ":" in it;
    the player id is ten lowercase hexadecimal digits, none of them ":",
    and it is the key the name was stored under. *)
Theorem join_identity_round_trip data urandom w resp w' game_pin :
  join_game data urandom w = (Ok resp, w') →
  strs (redis w) !! ("game:cqc:code:" +:+ JoinGameInput.code data) = Some game_pin →
  str_contains ":" game_pin = false →
  length urandom = 5%nat →
  let player_id := bytes_hex urandom in
  unpack2 (str_split ":" (JoinGameResponse.id resp)) = Ok (player_id, game_pin)
  ∧ String.length player_id = 10%nat
  ∧ str_forall is_lower_hex player_id = true
  ∧ str_contains ":" player_id = false
  ∧ strs (redis w') !! ("game:cqc:player:" +:+ player_id)
    = Some (JoinGameInput.name data).
Proof.
  intros Hjoin Hpin Hsep Hlen player_id.
  pose proof (bytes_hex_lower_hex urandom) as Hhex. fold player_id in Hhex.
  pose proof (lower_hex_no_separator _ Hhex) as Hno.
  unfold join_game, bind, redis_get, redis_get_game in Hjoin.
  rewrite Hpin in Hjoin. simpl in Hjoin.
  destruct (games (redis w) !! ("game:" +:+ game_pin)) as [game|];
    [|discriminate]. simpl in Hjoin.
  destruct (PlayGame.started game); [discriminate|].
  destruct (strs (redis w) !! _); [discriminate|].
  injection Hjoin as <- <-. cbn [JoinGameResponse.id]. fold player_id.
  split_and!.
  - change (":" +:+ game_pin) with (String ":" game_pin).
    by rewrite str_split_first, str_split_none.
  - subst player_id. rewrite bytes_hex_length, Hlen. done.
  - done.
  - done.
  - simpl. by rewrite lookup_insert_eq.
Qed.

(** C10 at work: a join in the lobby with the bytes 00 01 ab ff 10. *)
Lemma join_identity_round_trip_witness :
  let r := join_game {| JoinGameInput.code := "123456"; JoinGameInput.name := "Alice" |}
             [Byte.x00; Byte.x01; Byte.xab; Byte.xff; Byte.x10] lobby in
  r.1 = Ok {| JoinGameResponse.id := "0001abff10:482913" |}
  ∧ unpack2 (str_split ":" "0001abff10:482913") = Ok ("0001abff10", "482913").
Proof.
  intros r. split; [reflexivity|].
  refine (proj1 (join_identity_round_trip
    {| JoinGameInput.code := "123456"; JoinGameInput.name := "Alice" |}
    [Byte.x00; Byte.x01; Byte.xab; Byte.xff; Byte.x10] lobby
    {| JoinGameResponse.id := "0001abff10:482913" |} r.2 "482913" _ _ _ _));
    reflexivity.
Defined.

(** ** Connections *)

(** C6, as stated, fails: Alice's socket connects and then drops; the
    drop removes her from the registry, and the only event ever emitted is
    the "player_joined" of her connecting. *)
Lemma disconnect_broadcasts_nothing :
  let run inbox :=
    websocket_endpoint linear_score int_float_digits 1%nat
      "00000000a1:482913" "00000000a1:482913" inbox (playing choice_question true) in
  (run []).1 = Ok Receiving
  ∧ wss_clients (run []).2 !! "00000000a1:482913" = Some 1%nat
  ∧ (run [Disconnected]).1 = Ok Returned
  ∧ wss_clients (run [Disconnected]).2 !! "00000000a1:482913" = None
  ∧ sio_emitted (run [Disconnected]).2 = sio_emitted (run []).2
  ∧ sio_emitted (run []).2 =
      [{| event := "player_joined"; data := DataPlayer (Some "Alice") None;
          room := Some "admin:482913" |}].
Proof. vm_compute. done. Qed.

(** C6, amended: when a connection that is registered and waiting for its
    next frame ends, the endpoint returns and the identity is removed from
    the registry; nothing else changes: the store, with the scores and the
    roster, is kept, and no event is emitted. *)
Theorem disconnect_only_unregisters calculate_score int_float
    ws game_id id inbox w w1 :
  websocket_endpoint calculate_score int_float ws game_id id inbox w
    = (Ok Receiving, w1) →
  let r := websocket_endpoint calculate_score int_float ws game_id id
             (inbox ++ [Disconnected]) w in
  r.1 = Ok Returned
  ∧ wss_clients r.2 = delete id (wss_clients w1)
  ∧ wss_clients r.2 !! id = None
  ∧ redis r.2 = redis w1
  ∧ sio_emitted r.2 = sio_emitted w1
  ∧ ws_log r.2 = ws_log w1.
Proof.
  intros Hrun r.
  assert (Hr : r = (Ok Returned, with_wss_clients (delete id) w1)).
  { subst r. unfold websocket_endpoint, try_except in Hrun |- *.
    match type of Hrun with
    | match ?body with _ => _ end = _ => destruct body as [[st|e] w2] eqn:Hbody
    end; [|by destruct e].
    injection Hrun as -> ->.
    apply bind_Ok_inv in Hbody as (known & w3 & Hknown & Hbody).
    rewrite (bind_Ok _ _ _ _ _ Hknown).
    destruct known.
    { apply bind_Ok_inv in Hbody as (? & ? & _ & [=]). }
    apply bind_Ok_inv in Hbody as (? & w4 & Haccept & Hbody).
    rewrite (bind_Ok _ _ _ _ _ Haccept).
    apply bind_Ok_inv in Hbody as (? & w5 & Hreg & Hbody).
    rewrite (bind_Ok _ _ _ _ _ Hreg).
    apply bind_Ok_inv in Hbody as ([player_id game_pin] & w6 & Hsplit & Hbody).
    rewrite (bind_Ok _ _ _ _ _ Hsplit).
    apply bind_Ok_inv in Hbody as (username & w7 & Huser & Hbody).
    rewrite (bind_Ok _ _ _ _ _ Huser).
    apply bind_Ok_inv in Hbody as (? & w8 & Hemit & Hbody).
    rewrite (bind_Ok _ _ _ _ _ Hemit).
    apply bind_Ok_inv in Hbody as (pl & w9 & Hplayer & Hbody).
    rewrite (bind_Ok _ _ _ _ _ Hplayer).
    apply bind_Ok_inv in Hbody as (? & w10 & Hadd & Hloop).
    rewrite (bind_Ok _ _ _ _ _ Hadd).
    by rewrite (receive_loop_app _ _ _ _ _ _ _ _ _ Hloop). }
  rewrite Hr. cbn [fst snd with_wss_clients wss_clients redis sio_emitted ws_log].
  split_and!; [done..|by apply lookup_delete_eq|done|done|done].
Qed.

(** C6, amended, at work: Alice connects, scores 750 and drops; the store
    is the one she left. *)
Lemma disconnect_only_unregisters_witness :
  let run inbox :=
    websocket_endpoint linear_score int_float_digits 1%nat
      "00000000a1:482913" "00000000a1:482913" inbox (playing choice_question true) in
  player_score (run [Receive 5000000 (Some (button_press "g"))]).2 "482913" "Alice"
    = 750
  ∧ redis (run [Receive 5000000 (Some (button_press "g")); Disconnected]).2
    = redis (run [Receive 5000000 (Some (button_press "g"))]).2.
Proof.
  intros run. split; [reflexivity|].
  refine (proj1 (proj2 (proj2 (proj2
    (disconnect_only_unregisters linear_score int_float_digits 1%nat
       "00000000a1:482913" "00000000a1:482913"
       [Receive 5000000 (Some (button_press "g"))]
       (playing choice_question true)
       (run [Receive 5000000 (Some (button_press "g"))]).2 _))))).
  reflexivity.
Defined.

(** C7: a connection attempt for an identity that is in the registry is
    closed with the "going away" status 1001 and the endpoint returns; the
    attempt is not accepted, the registry and the connection it holds for
    the identity stay as they were, and neither the store nor the events
    change. *)
Theorem second_connection_rejected calculate_score int_float
    ws game_id id inbox w old :
  wss_clients w !! id = Some old →
  let r := websocket_endpoint calculate_score int_float ws game_id id inbox w in
  r.1 = Ok Returned
  ∧ ws_log r.2 = ws_log w ++ [(ws, WsClose 1001)]
  ∧ wss_clients r.2 = wss_clients w
  ∧ wss_clients r.2 !! id = Some old
  ∧ redis r.2 = redis w
  ∧ sio_emitted r.2 = sio_emitted w.
Proof.
  intros Hold r. subst r.
  unfold websocket_endpoint, try_except, bind, wss_clients_contains.
  rewrite bool_decide_eq_true_2 by (apply elem_of_dom; eauto).
  by split_and!.
Qed.

(** C7 at work: a second socket for Bob's identity, while his first is
    registered as connection 2. *)
Lemma second_connection_rejected_witness :
  let r := websocket_endpoint linear_score int_float_digits 7%nat
             "00000000b0:482913" "00000000b0:482913"
             [Receive 5000000 (Some (button_press "b"))]
             (playing choice_question true) in
  ws_log r.2 = [(7%nat, WsClose 1001)]
  ∧ wss_clients r.2 !! "00000000b0:482913" = Some 2%nat.
Proof.
  intros r.
  pose proof (second_connection_rejected linear_score int_float_digits 7%nat
                "00000000b0:482913" "00000000b0:482913"
                [Receive 5000000 (Some (button_press "b"))]
                (playing choice_question true) 2%nat eq_refl)
    as (_ & Hlog & _ & Hold & _).
  split; [exact Hlog|exact Hold].
Defined.

(** * Further properties of the handlers *)

(** ** Keys *)

Lemma player_key_not_code_key (player_id code : string) :
  "game:cqc:player:" +:+ player_id ≠ "game:cqc:code:" +:+ code.
Proof. intros H. cbv [String.append] in H. discriminate H. Qed.

Lemma player_key_not_session_key (player_id rest : string) :
  "game:cqc:player:" +:+ player_id ≠ "game_session:" +:+ rest.
Proof. intros H. cbv [String.append] in H. discriminate H. Qed.

(** ** [join_game] *)

(** X1: a join that is refused writes nothing, and it is refused for one of
    four reasons only: the code resolves to no pin (404), the pin has no
    game document (the [ValidationError] of [PlayGame.parse_raw] on
    [None]), the game has started (400), or the key of the name is set
    (409). *)
Theorem join_game_refusals data urandom w e w' :
  join_game data urandom w = (Raise e, w') →
  w' = w
  ∧ match strs (redis w) !! ("game:cqc:code:" +:+ JoinGameInput.code data) with
    | None => e = HTTPException 404 "Game not found"
    | Some game_pin =>
        match games (redis w) !! ("game:" +:+ game_pin) with
        | None => e = ValidationError
        | Some game =>
            if PlayGame.started game
            then e = HTTPException 400 "Game started already"
            else e = HTTPException 409 "Username already exists"
                 ∧ is_Some (strs (redis w)
                              !! ("game_session:" +:+ game_pin +:+ ":players:"
                                  +:+ JoinGameInput.name data))
        end
    end.
Proof.
  unfold join_game, bind, redis_get, redis_get_game, raise.
  destruct (strs (redis w) !! ("game:cqc:code:" +:+ _)) as [game_pin|];
    [|by intros [= <- <-]].
  simpl. destruct (games (redis w) !! ("game:" +:+ game_pin)) as [game|];
    [|by intros [= <- <-]].
  simpl. destruct (PlayGame.started game); [by intros [= <- <-]|].
  destruct (strs (redis w) !! _) as [sid|] eqn:Hname; [|discriminate].
  intros [= <- <-]. eauto.
Qed.

(** X1 at work: a join into the running game. *)
Lemma join_game_refusals_witness :
  let alice := {| JoinGameInput.code := "123456"; JoinGameInput.name := "Carol" |} in
  (join_game alice [] (playing choice_question true)).2 = playing choice_question true.
Proof.
  intros alice.
  refine (proj1 (join_game_refusals alice [] (playing choice_question true)
                   (HTTPException 400 "Game started already")
                   (join_game alice [] (playing choice_question true)).2 _)).
  reflexivity.
Defined.

(** X2: a join that succeeds stores the name under the player id it
    minted and does nothing else: the player is not on the roster yet, no
    event is emitted, and the key the name check reads is as unset as the
    check found it. *)
Theorem join_game_stores_name_only data urandom w resp w' game_pin :
  join_game data urandom w = (Ok resp, w') →
  strs (redis w) !! ("game:cqc:code:" +:+ JoinGameInput.code data) = Some game_pin →
  strs (redis w') = <["game:cqc:player:" +:+ bytes_hex urandom := JoinGameInput.name data]>
                      (strs (redis w))
  ∧ games (redis w') = games (redis w)
  ∧ sets (redis w') = sets (redis w)
  ∧ hashes (redis w') = hashes (redis w)
  ∧ sio_emitted w' = sio_emitted w
  ∧ wss_clients w' = wss_clients w
  ∧ strs (redis w') !! ("game_session:" +:+ game_pin +:+ ":players:"
                        +:+ JoinGameInput.name data) = None.
Proof.
  intros Hjoin Hpin.
  unfold join_game, bind, redis_get, redis_get_game in Hjoin.
  rewrite Hpin in Hjoin. simpl in Hjoin.
  destruct (games (redis w) !! ("game:" +:+ game_pin)) as [game|];
    [|discriminate]. simpl in Hjoin.
  destruct (PlayGame.started game); [discriminate|].
  destruct (strs (redis w) !! _) as [sid|] eqn:Hname; [discriminate|].
  injection Hjoin as <- <-. simpl. split_and!; [done..|].
  rewrite lookup_insert_ne; [done|]. apply player_key_not_session_key.
Qed.

(** X2 at work: Alice's join in the lobby. *)
Lemma join_game_stores_name_only_witness :
  let alice := {| JoinGameInput.code := "123456"; JoinGameInput.name := "Alice" |} in
  let r := join_game alice [Byte.x00; Byte.x00; Byte.x00; Byte.x00; Byte.xa1] lobby in
  sets (redis r.2) = sets (redis lobby)
  ∧ strs (redis r.2) !! "game_session:482913:players:Alice" = None.
Proof.
  intros alice r.
  pose proof (join_game_stores_name_only alice
                [Byte.x00; Byte.x00; Byte.x00; Byte.x00; Byte.xa1] lobby
                {| JoinGameResponse.id := "00000000a1:482913" |} r.2 "482913"
                eq_refl eq_refl) as (_ & _ & Hsets & _ & _ & _ & Hname).
  split; [exact Hsets|exact Hname].
Defined.

(** X3: joining reserves nothing.  After a join that succeeded, the same
    request succeeds again, whatever bytes [os.urandom] draws, and hands
    out the identity made of those bytes. *)
Theorem join_game_repeatable data urandom w resp w' urandom' :
  join_game data urandom w = (Ok resp, w') →
  ∃ game_pin w'',
    strs (redis w) !! ("game:cqc:code:" +:+ JoinGameInput.code data) = Some game_pin
    ∧ join_game data urandom' w'
      = (Ok {| JoinGameResponse.id := bytes_hex urandom' +:+ ":" +:+ game_pin |}, w'').
Proof.
  intros Hjoin.
  unfold join_game, bind, redis_get, redis_get_game in Hjoin |- *.
  destruct (strs (redis w) !! ("game:cqc:code:" +:+ _)) as [game_pin|] eqn:Hpin;
    [|discriminate]. simpl in Hjoin.
  destruct (games (redis w) !! ("game:" +:+ game_pin)) as [game|] eqn:Hgame;
    [|discriminate]. simpl in Hjoin.
  destruct (PlayGame.started game) eqn:Hstarted; [discriminate|].
  destruct (strs (redis w) !! ("game_session:" +:+ _)) as [sid|] eqn:Hname;
    [discriminate|].
  injection Hjoin as <- <-. exists game_pin. eexists. split; [done|]. simpl.
  rewrite (lookup_insert_ne (strs (redis w)) _ _ _ (player_key_not_code_key _ _)).
  rewrite Hpin. simpl. rewrite Hgame. simpl. rewrite Hstarted. simpl.
  rewrite (lookup_insert_ne (strs (redis w)) _ _ _ (player_key_not_session_key _ _)).
  by rewrite Hname.
Qed.

(** X3 at work: Alice joins the lobby twice. *)
Lemma join_game_repeatable_witness :
  let alice := {| JoinGameInput.code := "123456"; JoinGameInput.name := "Alice" |} in
  let r := join_game alice [Byte.x00; Byte.x00; Byte.x00; Byte.x00; Byte.xa1] lobby in
  ∃ w'', join_game alice [Byte.x00; Byte.x00; Byte.x00; Byte.x00; Byte.xb0] r.2
         = (Ok {| JoinGameResponse.id := "00000000b0:482913" |}, w'').
Proof.
  intros alice r.
  destruct (join_game_repeatable alice
              [Byte.x00; Byte.x00; Byte.x00; Byte.x00; Byte.xa1] lobby
              {| JoinGameResponse.id := "00000000a1:482913" |} r.2
              [Byte.x00; Byte.x00; Byte.x00; Byte.x00; Byte.xb0] eq_refl)
    as (game_pin & w'' & Hpin & Hjoin).
  exists w''. injection Hpin as <-. exact Hjoin.
Defined.

(** ** [submit_answer_fn] *)

Lemma recorded_answers_record_answer w game_pin q a :
  recorded_answers (record_answer w game_pin q a) game_pin q
  = recorded_answers w game_pin q ++ [a].
Proof. unfold recorded_answers at 1. simpl. by rewrite lookup_insert_eq. Qed.

Lemma player_score_record_answer w game_pin q a u :
  player_score (record_answer w game_pin q a) game_pin u
  = player_score w game_pin u
    + if decide (u = AnswerData.username a) then AnswerData.score a else 0.
Proof.
  unfold player_score at 1, hash_get. simpl. rewrite lookup_insert_eq. simpl.
  case_decide as Hu.
  - subst u. by rewrite lookup_insert_eq.
  - rewrite lookup_insert_ne by done. unfold player_score, hash_get. lia.
Qed.

(** What a call does to the world of a game: nothing, or the taking of
    one answer record for the current question. *)
Lemma submit_answer_fn_effect calculate_score int_float
    data_answer game_pin player_id now w game :
  games (redis w) !! ("game:" +:+ game_pin) = Some game →
  let r := submit_answer_fn calculate_score int_float data_answer game_pin
             player_id now w in
  r.2 = w
  ∨ ∃ a, r = (Ok tt, record_answer w game_pin (PlayGame.current_question game) a).
Proof.
  intros Hg r. subst r.
  destruct (submit_answer_fn_cases calculate_score int_float data_answer game_pin
              player_id now w)
    as [Hw|(game0 & u & qu & qt & sel & ar & sc & Hr & _ & _ & Hsub)]; [by left|].
  destruct Hr as [Hg0 _ _ _ _ _]. rewrite Hg in Hg0. injection Hg0 as <-.
  right. eauto.
Qed.

(** X4: a submission that raises has written nothing; and one for a game
    or a player the store does not know raises the 404 "id not existent". *)
Theorem submit_failure_writes_nothing calculate_score int_float
    data_answer game_pin player_id now w :
  let r := submit_answer_fn calculate_score int_float data_answer game_pin
             player_id now w in
  (∀ e, r.1 = Raise e → r.2 = w)
  ∧ (games (redis w) !! ("game:" +:+ game_pin) = None
     ∨ strs (redis w) !! ("game:cqc:player:" +:+ player_id) = None →
     r = (Raise (HTTPException 404 "id not existent"), w)).
Proof.
  intros r. subst r. split.
  - intros e He.
    destruct (submit_answer_fn_cases calculate_score int_float data_answer
                game_pin player_id now w)
      as [Hw|(? & ? & ? & ? & ? & ? & ? & _ & _ & _ & Hsub)]; [done|].
    rewrite Hsub in He. discriminate He.
  - unfold submit_answer_fn, bind, redis_get_game, redis_get.
    intros [Hg|Hu].
    + by rewrite Hg.
    + rewrite Hu. by case_match.
Qed.

(** X5: whatever a submission does, it leaves the game document, the
    player names, the clock, the roster and the registry alone and sends
    no frame; the only event it can emit is one "everyone_answered", with
    an empty payload and no room. *)
Theorem submit_answer_fn_footprint calculate_score int_float
    data_answer game_pin player_id now w :
  let w' := (submit_answer_fn calculate_score int_float data_answer game_pin
               player_id now w).2 in
  keeps_session w w'
  ∧ ws_log w' = ws_log w
  ∧ (sio_emitted w' = sio_emitted w
     ∨ sio_emitted w' =
       sio_emitted w
       ++ [{| event := "everyone_answered"; data := DataEmpty; room := None |}]).
Proof.
  intros w'. subst w'.
  destruct (submit_answer_fn_cases calculate_score int_float data_answer game_pin
              player_id now w)
    as [->|(game & ? & ? & ? & ? & ? & ? & _ & _ & _ & ->)].
  { split_and!; [by unfold keeps_session|done|by left]. }
  unfold keeps_session, record_answer. cbn [snd redis wss_clients sio_emitted
    ws_log strs games times sets].
  split_and!; [done..|]. destruct (_ =? _); [by right|left; apply app_nil_r].
Qed.

(** X6: the running totals follow the records.  Over any sequence of
    submissions to a game, the answers of the current question grow by
    some records [added], and the total of every player grows by the sum
    of the scores of that player's records among them. *)
Theorem score_bookkeeping calculate_score int_float game_pin game calls w :
  games (redis w) !! ("game:" +:+ game_pin) = Some game →
  let q := PlayGame.current_question game in
  let w' := submit_all calculate_score int_float game_pin calls w in
  ∃ added,
    recorded_answers w' game_pin q = recorded_answers w game_pin q ++ added
    ∧ ∀ u, player_score w' game_pin u
           = player_score w game_pin u + total_score (answers_of u added).
Proof.
  intros Hg q. revert w Hg.
  induction calls as [|[[data_answer player_id] now] calls IH]; intros w Hg; simpl.
  { exists []. split; [by rewrite app_nil_r|]. intros u. simpl. lia. }
  destruct (submit_answer_fn_effect calculate_score int_float data_answer
              game_pin player_id now w game Hg) as [Hw|[a Hr]].
  - rewrite Hw. by apply IH.
  - fold q in Hr. rewrite Hr. cbn [snd].
    destruct (IH (record_answer w game_pin q a)) as (added & Hrec & Hscore);
      [done|].
    exists (a :: added). split.
    + rewrite Hrec, recorded_answers_record_answer, <- app_assoc. done.
    + intros u. rewrite Hscore, player_score_record_answer.
      unfold answers_of. rewrite filter_cons.
      destruct (decide (AnswerData.username a = u)) as [<-|Hne].
      * rewrite decide_True by done. simpl. lia.
      * rewrite decide_False by done. lia.
Qed.

(** X6 at work: Alice right at 5 s, Bob wrong, Alice right again at 7 s. *)
Lemma score_bookkeeping_witness :
  let w := playing choice_question true in
  let w' := submit_all linear_score int_float_digits "482913"
              [(1, "00000000a1", 5000000); (0, "00000000b0", 3000000);
               (1, "00000000a1", 7000000)] w in
  ∃ added,
    recorded_answers w' "482913" 0 = recorded_answers w "482913" 0 ++ added
    ∧ ∀ u, player_score w' "482913" u
           = player_score w "482913" u + total_score (answers_of u added).
Proof.
  intros w w'.
  apply (score_bookkeeping linear_score int_float_digits "482913"
           (make_game choice_question true 0 true)
           [(1, "00000000a1", 5000000); (0, "00000000b0", 3000000);
            (1, "00000000a1", 7000000)] w).
  reflexivity.
Defined.

Lemma abcd_loop_true_iff (l : list ABCDQuizAnswer.t) (selected_answer : string) :
  abcd_loop l selected_answer = true
  ↔ ∃ b, b ∈ l ∧ ABCDQuizAnswer.answer b = selected_answer
         ∧ ABCDQuizAnswer.right b = true.
Proof.
  induction l as [|a l IH]; simpl.
  { split; [done|]. intros (b & Hb & _). by apply elem_of_nil in Hb. }
  destruct (String.eqb_spec (ABCDQuizAnswer.answer a) selected_answer) as [Heq|Hne];
    simpl.
  - destruct (ABCDQuizAnswer.right a) eqn:Hright.
    + split; [|done]. intros _. exists a. split_and!; [left|done..].
    + rewrite IH. split; intros (b & Hb & Hans & Hr).
      * exists b. split_and!; [by right|done..].
      * exists b. apply elem_of_cons in Hb as [->|Hb]; [congruence|done].
  - rewrite IH. split; intros (b & Hb & Hans & Hr).
    + exists b. split_and!; [by right|done..].
    + exists b. apply elem_of_cons in Hb as [->|Hb]; [congruence|done].
Qed.

(** X7: a choice is graded by its text.  The option picked on a choice
    question is graded right exactly when some option carrying the same
    text is marked right: a right option is always graded right, and so is
    a wrong one that shares its text with a right one. *)
Theorem choice_graded_by_text (l : list ABCDQuizAnswer.t) (data_answer : Z)
    (a : ABCDQuizAnswer.t) :
  list_getitem l data_answer = Ok a →
  answers_getitem_answer (AnswersABCD l) data_answer = Ok (ABCDQuizAnswer.answer a)
  ∧ (answers_loop (AnswersABCD l) (ABCDQuizAnswer.answer a) = Ok true
     ↔ ∃ b, b ∈ l ∧ ABCDQuizAnswer.answer b = ABCDQuizAnswer.answer a
            ∧ ABCDQuizAnswer.right b = true)
  ∧ (ABCDQuizAnswer.right a = true →
     answers_loop (AnswersABCD l) (ABCDQuizAnswer.answer a) = Ok true).
Proof.
  intros Ha.
  assert (Hin : a ∈ l).
  { unfold list_getitem in Ha.
    destruct (_ && _); [|discriminate].
    destruct (l !! _) as [x|] eqn:Hl; [|discriminate].
    injection Ha as <-. by eapply list_elem_of_lookup_2. }
  assert (Hiff : answers_loop (AnswersABCD l) (ABCDQuizAnswer.answer a) = Ok true
                 ↔ ∃ b, b ∈ l ∧ ABCDQuizAnswer.answer b = ABCDQuizAnswer.answer a
                        ∧ ABCDQuizAnswer.right b = true).
  { simpl. rewrite <- abcd_loop_true_iff. split; congruence. }
  split_and!.
  - simpl. by rewrite Ha.
  - done.
  - intros Hr. apply Hiff. eauto.
Qed.

(** X7 at work: on a question whose options are "4" (wrong), "4" (right)
    and "5", the first option is graded right. *)
Lemma choice_graded_by_text_witness :
  answers_getitem_answer (QuizQuestion.answers twin_question) 0 = Ok "4"
  ∧ (answers_loop (QuizQuestion.answers twin_question) "4" = Ok true
     ↔ ∃ b, b ∈ [abcd false "4"; abcd true "4"; abcd false "5"]
            ∧ ABCDQuizAnswer.answer b = "4" ∧ ABCDQuizAnswer.right b = true).
Proof.
  pose proof (choice_graded_by_text
                [abcd false "4"; abcd true "4"; abcd false "5"] 0
                (abcd false "4") eq_refl) as (Hsel & Hiff & _).
  split; [exact Hsel|exact Hiff].
Defined.

(** X8: a game whose [current_question] lies outside the questions, at or
    past their number or below minus their number, makes every submission
    of a known player to the shown question raise [IndexError], with
    nothing written. *)
Theorem question_index_out_of_range calculate_score int_float
    data_answer game_pin player_id now w game username :
  games (redis w) !! ("game:" +:+ game_pin) = Some game →
  strs (redis w) !! ("game:cqc:player:" +:+ player_id) = Some username →
  PlayGame.question_show game = true →
  let n := Z.of_nat (length (PlayGame.questions game)) in
  PlayGame.current_question game < - n ∨ n ≤ PlayGame.current_question game →
  submit_answer_fn calculate_score int_float data_answer game_pin player_id now w
  = (Raise IndexError, w).
Proof.
  intros Hg Hu Hshow n Hq.
  assert (Hitem : list_getitem (PlayGame.questions game)
                    (PlayGame.current_question game) = Raise IndexError).
  { unfold list_getitem. fold n.
    destruct (Z.ltb_spec (PlayGame.current_question game) 0).
    - destruct (Z.leb_spec 0 (PlayGame.current_question game + n)); [lia|done].
    - destruct (Z.ltb_spec (PlayGame.current_question game) n); [lia|].
      by rewrite andb_false_r. }
  unfold submit_answer_fn, bind, redis_get_game, redis_get, lift.
  rewrite Hg, Hu. simpl. rewrite Hshow. simpl. by rewrite Hitem.
Qed.

(** X8 at work: the game has one question and stands at question 1. *)
Lemma question_index_out_of_range_witness :
  let w :=
    {| redis :=
         {| strs := {[ "game:cqc:player:00000000a1" := "Alice" ]};
            games := {[ "game:482913" := make_game choice_question true 1 true ]};
            times := ∅; answer_lists := ∅; hashes := ∅; sets := ∅ |};
       wss_clients := ∅; sio_emitted := []; ws_log := [] |} in
  submit_answer_fn linear_score int_float_digits 0 "482913" "00000000a1" 5 w
  = (Raise IndexError, w).
Proof.
  intros w.
  apply (question_index_out_of_range linear_score int_float_digits 0 "482913"
           "00000000a1" 5 w (make_game choice_question true 1 true) "Alice");
    [reflexivity..|]. right. simpl. lia.
Defined.

(** X9: the elapsed time is an absolute value.  A press stamped [d] before
    the activation of the question is recorded and scored exactly as one
    stamped [d] after it. *)
Theorem elapsed_time_symmetric calculate_score int_float
    data_answer game_pin player_id w question_time d :
  times (redis w) !! ("game:" +:+ game_pin +:+ ":current_time") = Some question_time →
  submit_answer_fn calculate_score int_float data_answer game_pin player_id
    (question_time - d) w
  = submit_answer_fn calculate_score int_float data_answer game_pin player_id
      (question_time + d) w.
Proof.
  intros Ht.
  unfold submit_answer_fn, bind, redis_get_game, redis_get, redis_get_time, lift.
  destruct (games (redis w) !! _) as [game|]; [|done].
  destruct (strs (redis w) !! _) as [username|]; [|done]. simpl.
  destruct (PlayGame.question_show game); [|done]. simpl.
  destruct (list_getitem _ _) as [question|]; [|done].
  rewrite Ht. simpl.
  replace (Z.abs (question_time - (question_time - d)))
    with (Z.abs (question_time - (question_time + d))) by lia.
  done.
Qed.

(** X9 at work: Alice's press 5 s before the activation at time 0 and her
    press 5 s after it. *)
Lemma elapsed_time_symmetric_witness :
  submit_answer_fn linear_score int_float_digits 1 "482913" "00000000a1"
    (0 - 5000000) (playing choice_question true)
  = submit_answer_fn linear_score int_float_digits 1 "482913" "00000000a1"
      (0 + 5000000) (playing choice_question true).
Proof.
  apply (elapsed_time_symmetric linear_score int_float_digits 1 "482913"
           "00000000a1" (playing choice_question true) 0 5000000).
  reflexivity.
Defined.

(** X20: a time limit that [int(float(...))] cannot read only hurts right
    answers.  On a choice question whose [time] makes the conversion raise,
    a right answer raises that exception before anything is written, while
    a wrong answer is recorded with score 0 as on any other question. *)
Theorem unreadable_time_limit calculate_score int_float
    data_answer game_pin player_id now w
    game username question question_time selected_answer e :
  reaches_grading w data_answer game_pin player_id game username question
    question_time selected_answer →
  QuizQuestion.type question = Some ABCD →
  int_float (QuizQuestion.time question) = Raise e →
  let r := submit_answer_fn calculate_score int_float data_answer game_pin
             player_id now w in
  (answers_loop (QuizQuestion.answers question) selected_answer = Ok true →
   r = (Raise e, w))
  ∧ (answers_loop (QuizQuestion.answers question) selected_answer = Ok false →
     r.1 = Ok tt
     ∧ recorded_answers r.2 game_pin (PlayGame.current_question game)
       = recorded_answers w game_pin (PlayGame.current_question game)
         ++ [{| AnswerData.username := username;
                AnswerData.answer := selected_answer;
                AnswerData.right := false;
                AnswerData.time_taken := Qabs (Qmake (question_time - now) 1000);
                AnswerData.score := 0 |}]).
Proof.
  intros Hreach Hty Htime r. subst r. split; intros Hloop.
  - destruct Hreach as [Hg Hu Hshow Hq Ht Hsel].
    unfold submit_answer_fn, bind, redis_get_game, redis_get, redis_get_time, lift.
    rewrite Hg, Hu. simpl. rewrite Hshow. simpl. rewrite Hq, Ht. simpl.
    unfold try_except, bind, lift. rewrite Hsel. simpl.
    rewrite Hty. simpl. rewrite Hloop. simpl. by rewrite Htime.
  - erewrite submit_answer_fn_accepts; [|exact Hreach|by left|done].
    split; [done|]. apply recorded_answers_record_answer.
Qed.

(** X20 at work: the time limit of the question reads "soon"; Alice picks
    the right option, Bob a wrong one. *)
Lemma unreadable_time_limit_witness :
  let q := {| QuizQuestion.question := "Which one?"; QuizQuestion.time := "soon";
              QuizQuestion.type := Some ABCD;
              QuizQuestion.answers := AnswersABCD [abcd false "A"; abcd true "B"];
              QuizQuestion.image := None |} in
  submit_answer_fn linear_score int_float_digits 1 "482913" "00000000a1" 5000000
    (playing q true) = (Raise ValueError, playing q true)
  ∧ (submit_answer_fn linear_score int_float_digits 0 "482913" "00000000b0" 5000000
       (playing q true)).1 = Ok tt.
Proof.
  intros q. split.
  - refine (proj1 (unreadable_time_limit linear_score int_float_digits
                     1 "482913" "00000000a1" 5000000 (playing q true)
                     (make_game q true 0 true) "Alice" q 0 "B" ValueError
                     _ eq_refl eq_refl) eq_refl).
    by constructor.
  - refine (proj1 (proj2 (unreadable_time_limit linear_score int_float_digits
                     0 "482913" "00000000b0" 5000000 (playing q true)
                     (make_game q true 0 true) "Bob" q 0 "A" ValueError
                     _ eq_refl eq_refl) eq_refl)).
    by constructor.
Defined.

(** ** [websocket_endpoint] *)

Lemma keeps_session_refl w : keeps_session w w.
Proof. by unfold keeps_session. Qed.

Lemma keeps_session_trans w1 w2 w3 :
  keeps_session w1 w2 → keeps_session w2 w3 → keeps_session w1 w3.
Proof.
  unfold keeps_session. intros (-> & -> & -> & -> & ->) (-> & -> & -> & -> & ->).
  done.
Qed.

Lemma submit_answer_fn_keeps_session calculate_score int_float
    data_answer game_pin player_id now w :
  keeps_session w (submit_answer_fn calculate_score int_float data_answer
                     game_pin player_id now w).2.
Proof.
  destruct (submit_answer_fn_cases calculate_score int_float data_answer game_pin
              player_id now w)
    as [->|(game & ? & ? & ? & ? & ? & ? & _ & _ & _ & ->)];
    [apply keeps_session_refl|by unfold keeps_session].
Qed.

Lemma receive_loop_keeps_session calculate_score int_float ws game_pin player_id
    inbox w :
  keeps_session w (receive_loop calculate_score int_float ws game_pin player_id
                     inbox w).2.
Proof.
  revert w. induction inbox as [|[now [data|]|] inbox IH]; intros w; simpl.
  - apply keeps_session_refl.
  - destruct (WebSocketRequest.type data); [|apply IH].
    unfold try_except, bind at 1 2, lift.
    destruct (button_index _) as [i|e]; simpl.
    + unfold bind at 1.
      pose proof (submit_answer_fn_keeps_session calculate_score int_float i
                    game_pin player_id now w) as Hsub.
      destruct (submit_answer_fn _ _ _ _ _ _ w) as [[[]|e] w1]; simpl in Hsub |- *.
      * eapply keeps_session_trans; [exact Hsub|apply IH].
      * done.
    + destruct e; simpl; try apply keeps_session_refl;
        (eapply keeps_session_trans; [|apply IH]); by unfold keeps_session.
  - unfold bind at 1. simpl.
    eapply keeps_session_trans; [|apply IH]. by unfold keeps_session.
  - apply keeps_session_refl.
Qed.

Lemma str_split_length (sep : ascii) (s : string) :
  length (str_split sep s) = S (str_count sep s).
Proof.
  induction s as [|c s IH]; [done|]. cbn [str_split str_count].
  destruct (Ascii.eqb c sep); simpl; [by rewrite IH|].
  destruct (str_split sep s); simpl in *; lia.
Qed.

Lemma unpack2_raises {A} (l : list A) :
  length l ≠ 2%nat → unpack2 l = Raise ValueError.
Proof. by destruct l as [|? [|? [|? ?]]]. Qed.

(** The endpoint on a fresh identity of a known player: the socket is set
    up, and the loop runs under the [except WebSocketDisconnect] clause. *)
Lemma websocket_endpoint_connects calculate_score int_float
    ws game_id id inbox w player_id game_pin username :
  wss_clients w !! id = None →
  unpack2 (str_split ":" game_id) = Ok (player_id, game_pin) →
  strs (redis w) !! ("game:cqc:player:" +:+ player_id) = Some username →
  websocket_endpoint calculate_score int_float ws game_id id inbox w
  = try_except
      (receive_loop calculate_score int_float ws game_pin player_id inbox)
      (λ e, match e with
            | WebSocketDisconnect => Some (wss_clients_pop id ;; ret Returned)
            | _ => None
            end)
      (connected w ws id game_pin username).
Proof.
  intros Hid Hsplit Hname.
  unfold websocket_endpoint, try_except, bind at 1, wss_clients_contains.
  rewrite bool_decide_eq_false_2 by (rewrite elem_of_dom, Hid; by intros [? ?]).
  unfold bind at 1, ws_do. unfold bind at 1, wss_clients_setitem.
  unfold bind at 1, lift. rewrite Hsplit.
  unfold bind at 1, redis_get. simpl. rewrite Hname.
  unfold bind at 1, sio_emit. unfold bind at 1, GamePlayer_new, ret.
  unfold bind at 1, redis_sadd. done.
Qed.



(** X11: a [game_id] without exactly one ":" makes the unpacking of the
    split raise [ValueError], after the socket was accepted and
    registered: the identity stays in the registry, and the store and the
    events are untouched. *)
Theorem malformed_game_id_raises calculate_score int_float
    ws game_id id inbox w :
  wss_clients w !! id = None →
  str_count ":" game_id ≠ 1%nat →
  let r := websocket_endpoint calculate_score int_float ws game_id id inbox w in
  r.1 = Raise ValueError
  ∧ wss_clients r.2 = <[id := ws]> (wss_clients w)
  ∧ ws_log r.2 = ws_log w ++ [(ws, WsAccept)]
  ∧ redis r.2 = redis w
  ∧ sio_emitted r.2 = sio_emitted w.
Proof.
  intros Hid Hcount r.
  assert (Hr : r = (Raise ValueError,
                    with_wss_clients (insert id ws)
                      (ws_do ws WsAccept w).2)).
  { subst r.
    unfold websocket_endpoint, try_except, bind at 1, wss_clients_contains.
    rewrite bool_decide_eq_false_2 by (rewrite elem_of_dom, Hid; by intros [? ?]).
    unfold bind at 1, ws_do. unfold bind at 1, wss_clients_setitem.
    unfold bind at 1, lift.
    by rewrite unpack2_raises by (rewrite str_split_length; lia). }
  by rewrite Hr.
Qed.

(** X11 at work: a [game_id] with no ":" at all. *)
Lemma malformed_game_id_raises_witness :
  let r := websocket_endpoint linear_score int_float_digits 1%nat
             "00000000a1" "box" [] (playing choice_question true) in
  r.1 = Raise ValueError ∧ wss_clients r.2 !! "box" = Some 1%nat.
Proof.
  intros r.
  pose proof (malformed_game_id_raises linear_score int_float_digits 1%nat
                "00000000a1" "box" [] (playing choice_question true)
                eq_refl ltac:(discriminate)) as (Hraise & Hreg & _).
  split; [exact Hraise|]. etrans; [exact (f_equal (.!! "box") Hreg)|reflexivity].
Defined.

(** X12: a socket for a player id the store does not know is accepted and
    registered all the same; "player_joined" is emitted with no username,
    and then building the [GamePlayer] raises [ValidationError]: the
    roster is not touched and the identity stays in the registry. *)
Theorem unknown_player_connects_half calculate_score int_float
    ws game_id id inbox w player_id game_pin :
  wss_clients w !! id = None →
  unpack2 (str_split ":" game_id) = Ok (player_id, game_pin) →
  strs (redis w) !! ("game:cqc:player:" +:+ player_id) = None →
  let r := websocket_endpoint calculate_score int_float ws game_id id inbox w in
  r.1 = Raise ValidationError
  ∧ wss_clients r.2 = <[id := ws]> (wss_clients w)
  ∧ sio_emitted r.2 =
      sio_emitted w ++ [{| event := "player_joined"; data := DataPlayer None None;
                           room := Some ("admin:" +:+ game_pin) |}]
  ∧ redis r.2 = redis w.
Proof.
  intros Hid Hsplit Hname r.
  assert (Hr : r = (Raise ValidationError,
                    (sio_emit "player_joined" (DataPlayer None None)
                       (Some ("admin:" +:+ game_pin))
                       (with_wss_clients (insert id ws)
                          (ws_do ws WsAccept w).2)).2)).
  { subst r.
    unfold websocket_endpoint, try_except, bind at 1, wss_clients_contains.
    rewrite bool_decide_eq_false_2 by (rewrite elem_of_dom, Hid; by intros [? ?]).
    unfold bind at 1, ws_do. unfold bind at 1, wss_clients_setitem.
    unfold bind at 1, lift. rewrite Hsplit.
    unfold bind at 1, redis_get. simpl. by rewrite Hname. }
  by rewrite Hr.
Qed.

(** X12 at work: the player id ffffffffff was never handed out. *)
Lemma unknown_player_connects_half_witness :
  let r := websocket_endpoint linear_score int_float_digits 1%nat
             "ffffffffff:482913" "box" [] (playing choice_question true) in
  r.1 = Raise ValidationError
  ∧ player_count r.2 "482913" = player_count (playing choice_question true) "482913".
Proof.
  intros r.
  pose proof (unknown_player_connects_half linear_score int_float_digits 1%nat
                "ffffffffff:482913" "box" [] (playing choice_question true)
                "ffffffffff" "482913" eq_refl eq_refl eq_refl)
    as (Hraise & _ & _ & Hredis).
  split; [exact Hraise|]. exact (f_equal (λ r, Z.of_nat (size (default ∅ (sets r !! "game_session:482913:players")))) Hredis).
Defined.

Lemma button_index_raises (d : Any) (e : exn) :
  button_index d = Raise e → e = KeyError ∨ e = AttributeError.
Proof.
  destruct d as [s|]; simpl; [|intros [= <-]; by right].
  destruct (button_to_index_map !! _); [discriminate|]. intros [= <-]. by left.
Qed.

(** X13: an exception that leaves the endpoint is never the disconnect,
    which the endpoint handles, and it leaves the identity registered
    with the socket that raised; from then on every connection attempt for
    the identity is closed with 1001 and changes nothing else. *)
Theorem raised_handler_stays_registered calculate_score int_float
    ws game_id id inbox w e w' :
  websocket_endpoint calculate_score int_float ws game_id id inbox w = (Raise e, w') →
  e ≠ WebSocketDisconnect
  ∧ wss_clients w' = <[id := ws]> (wss_clients w)
  ∧ ∀ ws2 game_id2 inbox2,
      websocket_endpoint calculate_score int_float ws2 game_id2 id inbox2 w'
      = (Ok Returned, (ws_do ws2 (WsClose 1001) w').2).
Proof.
  intros Hrun.
  assert (Hreg : e ≠ WebSocketDisconnect
                 ∧ wss_clients w' = <[id := ws]> (wss_clients w)).
  { unfold websocket_endpoint, try_except, bind at 1, wss_clients_contains in Hrun.
    destruct (bool_decide (id ∈ dom (wss_clients w))); [discriminate|].
    unfold bind at 1, ws_do in Hrun. unfold bind at 1, wss_clients_setitem in Hrun.
    unfold bind at 1, lift in Hrun.
    destruct (unpack2 (str_split ":" game_id)) as [[player_id game_pin]|e0].
    2:{ destruct e0; simpl in Hrun; try discriminate;
          injection Hrun as <- <-; done. }
    unfold bind at 1, redis_get in Hrun. simpl in Hrun.
    unfold bind at 1, sio_emit in Hrun. unfold bind at 1, GamePlayer_new in Hrun.
    destruct (strs (redis w) !! _) as [username|].
    2:{ simpl in Hrun. injection Hrun as <- <-. done. }
    unfold ret, bind at 1, redis_sadd in Hrun.
    match type of Hrun with
    | context [receive_loop _ _ _ _ _ _ ?W] =>
        pose proof (receive_loop_keeps_session calculate_score int_float ws
                      game_pin player_id inbox W) as (_ & _ & _ & _ & Hkeep);
        destruct (receive_loop calculate_score int_float ws game_pin player_id
                    inbox W) as [[st|e1] w1]
    end; [discriminate|].
    destruct e1; simpl in Hrun; try discriminate; injection Hrun as <- <-; done. }
  destruct Hreg as [Hne Hreg]. split_and!; [done..|].
  intros ws2 game_id2 inbox2.
  unfold websocket_endpoint, try_except, bind at 1, wss_clients_contains.
  rewrite bool_decide_eq_true_2; [done|].
  rewrite Hreg, dom_insert_L. apply elem_of_union_l, elem_of_singleton. done.
Qed.

(** X13 at work: Alice's box presses red on the question of three
    options; the [IndexError] leaves the endpoint, and the next socket for
    her identity is turned away. *)
Lemma raised_handler_stays_registered_witness :
  let r := websocket_endpoint linear_score int_float_digits 1%nat
             "00000000a1:482913" "00000000a1:482913"
             [Receive 5000000 (Some (button_press "r"))]
             (playing choice_question true) in
  r.1 = Raise IndexError
  ∧ (websocket_endpoint linear_score int_float_digits 5%nat
       "00000000a1:482913" "00000000a1:482913" [] r.2).1 = Ok Returned.
Proof.
  intros r. split; [reflexivity|].
  pose proof (raised_handler_stays_registered linear_score int_float_digits
                1%nat "00000000a1:482913" "00000000a1:482913"
                [Receive 5000000 (Some (button_press "r"))]
                (playing choice_question true) IndexError r.2 eq_refl)
    as (_ & _ & Hnext).
  exact (f_equal fst (Hnext 5%nat "00000000a1:482913" [])).
Defined.

(** X14: frames that are not presses of a known button never reach the
    game.  The loop answers a frame that fails validation with the error
    "ValidationError" and a press of an unknown button, or of no string at
    all, with "InvalidButton", passes over a frame of type error in
    silence, and goes on; the store, the events and the registry stay as
    they were. *)
Theorem junk_frames_only_answered calculate_score int_float
    ws game_pin player_id inbox w :
  Forall (λ f, f ≠ Disconnected ∧ is_press f = false) inbox →
  receive_loop calculate_score int_float ws game_pin player_id inbox w
  = (Ok Receiving,
     {| redis := redis w; wss_clients := wss_clients w;
        sio_emitted := sio_emitted w;
        ws_log :=
          ws_log w
          ++ ((λ reason,
                 (ws, WsSendText {| WebSocketRequest.type := Error;
                                    WebSocketRequest.data := AnyStr reason |}))
              <$> concat (error_replies <$> inbox)) |}).
Proof.
  intros Hjunk. revert w.
  induction Hjunk as [|f inbox [Hf Hpress] _ IH]; intros w.
  { simpl. rewrite app_nil_r. by destruct w. }
  destruct f as [now [data|]|]; [| |done]; simpl in Hpress |- *.
  - destruct (WebSocketRequest.type data).
    + unfold try_except, bind at 1 2, lift.
      destruct (button_index _) as [i|e] eqn:Hbutton; [discriminate|].
      assert (Hsend :
        (send_error ws "InvalidButton" ;; ret None) w
        = (Ok (None : option Z),
           {| redis := redis w; wss_clients := wss_clients w;
              sio_emitted := sio_emitted w;
              ws_log := ws_log w ++ [(ws, WsSendText
                          {| WebSocketRequest.type := Error;
                             WebSocketRequest.data := AnyStr "InvalidButton" |})] |}))
        by done.
      destruct (button_index_raises _ _ Hbutton) as [->| ->];
        rewrite Hsend, IH; simpl; by rewrite <- app_assoc.
    + rewrite IH. done.
  - unfold bind at 1, send_error, ws_do. rewrite IH. simpl.
    by rewrite <- app_assoc.
Qed.

(** X14 at work: a frame that is no request, the button "x", a press
    whose data is not a string, and a frame of type error. *)
Lemma junk_frames_only_answered_witness :
  let w := playing choice_question true in
  let r := receive_loop linear_score int_float_digits 1%nat "482913" "00000000a1"
             [Receive 1 None; Receive 2 (Some (button_press "x"));
              Receive 3 (Some {| WebSocketRequest.type := ButtonPress;
                                 WebSocketRequest.data := AnyOther |});
              Receive 4 (Some {| WebSocketRequest.type := Error;
                                 WebSocketRequest.data := AnyStr "b" |})] w in
  r.1 = Ok Receiving
  ∧ redis r.2 = redis w
  ∧ length (ws_log r.2) = 3%nat.
Proof.
  intros w r.
  pose proof (junk_frames_only_answered linear_score int_float_digits 1%nat
                "482913" "00000000a1"
                [Receive 1 None; Receive 2 (Some (button_press "x"));
                 Receive 3 (Some {| WebSocketRequest.type := ButtonPress;
                                    WebSocketRequest.data := AnyOther |});
                 Receive 4 (Some {| WebSocketRequest.type := Error;
                                    WebSocketRequest.data := AnyStr "b" |})] w) as H.
  split_and!.
  - refine (f_equal fst (H _)). repeat constructor; discriminate.
  - refine (f_equal (λ x, redis x.2) (H _)). repeat constructor; discriminate.
  - refine (f_equal (λ x, length (ws_log x.2)) (H _)).
    repeat constructor; discriminate.
Defined.

(** X15: the buttons.  A frame's data is a button exactly when it is a
    string that reads "b", "g", "y" or "r" once lowered, and the indices
    are 0, 1, 2 and 3 in that order; so an index handed to
    [submit_answer_fn] by the socket is never negative and never above 3. *)
Theorem button_index_spec (d : Any) (i : Z) :
  button_index d = Ok i
  ↔ ∃ s, d = AnyStr s
         ∧ (str_lower s = "b" ∧ i = 0 ∨ str_lower s = "g" ∧ i = 1
            ∨ str_lower s = "y" ∧ i = 2 ∨ str_lower s = "r" ∧ i = 3).
Proof.
  destruct d as [s|]; simpl.
  2:{ split; [done|]. by intros (s & [=] & _). }
  unfold button_to_index_map.
  rewrite !lookup_insert, lookup_singleton.
  split.
  - intros H. exists s. split; [done|].
    repeat case_decide; simplify_eq; eauto 10.
  - intros (s' & [= <-] & H).
    repeat case_decide; destruct H as [[? ->]|[[? ->]|[[? ->]|[? ->]]]];
      congruence.
Qed.

Lemma join_game_ok_inv data urandom w resp w' :
  join_game data urandom w = (Ok resp, w') →
  ∃ game_pin,
    strs (redis w) !! ("game:cqc:code:" +:+ JoinGameInput.code data) = Some game_pin
    ∧ resp = {| JoinGameResponse.id := bytes_hex urandom +:+ ":" +:+ game_pin |}
    ∧ w' = (redis_set ("game:cqc:player:" +:+ bytes_hex urandom)
              (JoinGameInput.name data) w).2.
Proof.
  unfold join_game, bind, redis_get, redis_get_game.
  destruct (strs (redis w) !! ("game:cqc:code:" +:+ _)) as [game_pin|];
    [|discriminate]. simpl.
  destruct (games (redis w) !! ("game:" +:+ game_pin)) as [game|];
    [|discriminate]. simpl.
  destruct (PlayGame.started game); [discriminate|].
  destruct (strs (redis w) !! _); [discriminate|].
  intros [= <- <-]. eauto.
Qed.

(** X16: joining and then connecting.  The identity of a successful join,
    to a pin without ":", used as [game_id] and [id] of a socket that is
    not registered yet, connects the player: the socket is registered,
    "player_joined" carries the name given at the join to the room of the
    host of that pin, and the name is on the roster of the pin. *)
Theorem join_then_connect calculate_score int_float data urandom w resp w'
    game_pin ws :
  join_game data urandom w = (Ok resp, w') →
  strs (redis w) !! ("game:cqc:code:" +:+ JoinGameInput.code data) = Some game_pin →
  str_contains ":" game_pin = false →
  wss_clients w !! JoinGameResponse.id resp = None →
  let r := websocket_endpoint calculate_score int_float ws
             (JoinGameResponse.id resp) (JoinGameResponse.id resp) [] w' in
  r = (Ok Receiving,
       connected w' ws (JoinGameResponse.id resp) game_pin (JoinGameInput.name data))
  ∧ player (JoinGameInput.name data)
      ∈ default ∅ (sets (redis r.2) !! ("game_session:" +:+ game_pin +:+ ":players")).
Proof.
  intros Hjoin Hpin Hsep Hid r.
  destruct (join_game_ok_inv _ _ _ _ _ Hjoin) as (game_pin' & Hpin' & -> & ->).
  rewrite Hpin in Hpin'. injection Hpin' as <-.
  cbn [JoinGameResponse.id] in *.
  set (w1 := (redis_set ("game:cqc:player:" +:+ bytes_hex urandom)
                (JoinGameInput.name data) w).2) in *.
  assert (Hr : r = (Ok Receiving,
                    connected w1 ws (bytes_hex urandom +:+ ":" +:+ game_pin) game_pin
                      (JoinGameInput.name data))).
  { subst r.
    erewrite websocket_endpoint_connects; [done|done|..].
    - change (":" +:+ game_pin) with (String ":" game_pin).
      rewrite str_split_first, str_split_none; [done..|].
      apply lower_hex_no_separator, bytes_hex_lower_hex.
    - simpl. by rewrite lookup_insert_eq. }
  rewrite Hr. split; [done|]. simpl. rewrite lookup_insert_eq. simpl.
  apply elem_of_union_l, elem_of_singleton. done.
Qed.

(** X16 at work: Alice joins the lobby and connects her box. *)
Lemma join_then_connect_witness :
  let alice := {| JoinGameInput.code := "123456"; JoinGameInput.name := "Alice" |} in
  let j := join_game alice [Byte.x00; Byte.x00; Byte.x00; Byte.x00; Byte.xa1] lobby in
  let r := websocket_endpoint linear_score int_float_digits 1%nat
             "00000000a1:482913" "00000000a1:482913" [] j.2 in
  player "Alice" ∈ default ∅ (sets (redis r.2) !! "game_session:482913:players").
Proof.
  intros alice j r.
  exact (proj2 (join_then_connect linear_score int_float_digits alice
                  [Byte.x00; Byte.x00; Byte.x00; Byte.x00; Byte.xa1] lobby
                  {| JoinGameResponse.id := "00000000a1:482913" |} j.2 "482913"
                  1%nat eq_refl eq_refl eq_refl eq_refl)).
Defined.

(** ** The validator of the answers *)

(** X17: what the validator lets through.  It hands back the answers it
    was given, and it does so exactly when the type is [None], or the
    answers have the shape of the type and, where that shape is a list or
    a string, at least one element: ABCD answers for ABCD, a range for
    RANGE, voting answers for VOTING and for ORDER, text answers for TEXT,
    a string for SLIDE. *)
Theorem validator_accepts_iff (ty : option QuizQuestionType) (v v' : QuizAnswers) :
  answers_not_none_if_abcd_type ty v = Ok v'
  ↔ v' = v
    ∧ match ty with
      | None => True
      | Some ABCD => ∃ a l, v = AnswersABCD (a :: l)
      | Some RANGE => ∃ r, v = AnswersRange r
      | Some VOTING | Some ORDER => ∃ a l, v = AnswersVoting (a :: l)
      | Some TEXT => ∃ a l, v = AnswersText (a :: l)
      | Some SLIDE => ∃ c s, v = AnswersStr (String c s)
      end.
Proof.
  destruct ty as [[]|];
    destruct v as [[|a l]|r|[|a l]|[|a l]|[|c s]]; vm_compute;
    (split; [intros [= <-]; eauto|intros [-> H]; try done;
             try (by destruct H as (? & ? & [=])); by destruct H as (? & [=])]).
Qed.

(** X18: answers with nothing in them are not refused as invalid.  For
    every type that looks at the first answer, an empty list of answers,
    or an empty string, makes the validator raise [IndexError], not the
    [ValueError] that reports a wrong shape. *)
Theorem validator_empty_answers_raise_IndexError (ty : QuizQuestionType)
    (v : QuizAnswers) :
  ty ≠ RANGE →
  v ∈ [AnswersABCD []; AnswersText []; AnswersVoting []; AnswersStr ""] →
  answers_not_none_if_abcd_type (Some ty) v = Raise IndexError.
Proof.
  intros Hty Hv. rewrite !elem_of_cons, elem_of_nil in Hv.
  destruct Hv as [->|[->|[->|[->|[]]]]]; by destruct ty.
Qed.

(** X18 at work: a choice question with no options. *)
Lemma validator_empty_answers_raise_IndexError_witness :
  answers_not_none_if_abcd_type (Some ABCD) (AnswersABCD []) = Raise IndexError.
Proof.
  apply validator_empty_answers_raise_IndexError; [discriminate|].
  apply list_elem_of_here.
Defined.

Lemma validator_accepts_iff_shape (ty : QuizQuestionType) (v v' : QuizAnswers) :
  answers_not_none_if_abcd_type (Some ty) v = Ok v' →
  match ty with
  | ABCD => ∃ a l, v = AnswersABCD (a :: l)
  | RANGE => ∃ r, v = AnswersRange r
  | VOTING | ORDER => ∃ a l, v = AnswersVoting (a :: l)
  | TEXT => ∃ a l, v = AnswersText (a :: l)
  | SLIDE => ∃ c s, v = AnswersStr (String c s)
  end.
Proof.
  destruct ty; destruct v as [[|a l]|r|[|a l]|[|a l]|[|c s]]; vm_compute;
    intros [=]; eauto.
Qed.

(** X19: a validated choice or voting question can fail a submission at
    the lookup of the option only by [IndexError], and only for an index
    outside the options; within them the lookup gives a text, and grading
    that text does not raise. *)
Theorem validated_question_lookup (ty : QuizQuestionType) (v : QuizAnswers)
    (data_answer : Z) :
  ty = ABCD ∨ ty = VOTING →
  answers_not_none_if_abcd_type (Some ty) v = Ok v →
  ∃ n, answer_options v = Some n ∧ (0 < n)%nat
    ∧ if decide (- Z.of_nat n ≤ data_answer < Z.of_nat n)
      then ∃ selected_answer,
             answers_getitem_answer v data_answer = Ok selected_answer
             ∧ (ty = ABCD → ∃ b, answers_loop v selected_answer = Ok b)
      else answers_getitem_answer v data_answer = Raise IndexError.
Proof.
  intros Hty Hv. apply validator_accepts_iff_shape in Hv.
  assert (Hitem : ∀ A (l : list A),
    if decide (- Z.of_nat (length l) ≤ data_answer < Z.of_nat (length l))
    then ∃ x, list_getitem l data_answer = Ok x
    else list_getitem l data_answer = Raise IndexError).
  { intros A l. unfold list_getitem.
    destruct (Z.ltb_spec data_answer 0), (Z.leb_spec 0 data_answer); try lia.
    - destruct (Z.leb_spec 0 (data_answer + Z.of_nat (length l))),
        (Z.ltb_spec (data_answer + Z.of_nat (length l)) (Z.of_nat (length l)));
        try lia; case_decide; try lia; simpl; [|done].
      destruct (l !! _) as [x|] eqn:Hl; [eauto|].
      apply lookup_ge_None in Hl. lia.
    - destruct (Z.ltb_spec data_answer (Z.of_nat (length l)));
        case_decide; try lia; simpl; [|done].
      destruct (l !! _) as [x|] eqn:Hl; [eauto|].
      apply lookup_ge_None in Hl. lia. }
  destruct Hty as [-> | ->]; destruct Hv as (a & l & ->);
    (eexists; split; [done|]; split; [simpl; lia|]);
    cbn [answers_getitem_answer answers_loop].
  - specialize (Hitem _ (a :: l)). case_decide.
    + destruct Hitem as [x ->]. eauto.
    + by rewrite Hitem.
  - specialize (Hitem _ (a :: l)). case_decide.
    + destruct Hitem as [x ->]. eexists. split; [done|]. discriminate.
    + by rewrite Hitem.
Qed.

(** X19 at work: the sample choice question and the index 3. *)
Lemma validated_question_lookup_witness :
  answers_getitem_answer (QuizQuestion.answers choice_question) 3 = Raise IndexError.
Proof.
  destruct (validated_question_lookup ABCD (QuizQuestion.answers choice_question) 3
              (or_introl eq_refl) eq_refl) as (n & Hn & _ & H).
  injection Hn as <-. exact H.
Defined.
